(** * textual-web: the command-line bootstrap ([textual_web/cli.py])

    A shallow embedding of the [app] entry point of [textual_web/cli.py]
    and of the collaborators it calls, followed by the properties of the
    bootstrap: which sub-command runs, how configuration failures end the
    run, which sessions are seeded, and how the event loop is started.

    The entry point is effectful: it logs, prints, calls into other
    modules and may see exceptions.  The embedding threads these through a
    small writer/error monad: a computation yields the ordered list of
    calls it made to its collaborators (its trace) and either a value or
    the exception that left it.  Strings are ASCII strings. *)

From Stdlib Require Import Ascii String.
From stdpp Require Import base option strings list gmap.

Set Default Proof Using "Type".
Open Scope string_scope.
Open Scope list_scope.
Open Scope nat_scope.

(** ** Exceptions

    The part of Python's exception hierarchy the entry point tests for,
    below [Exception].  [OtherError name] stands for any further class
    deriving from [Exception] that is neither an [OSError] nor an
    [ImportError] (RuntimeError, ValueError, a TOML decoding error, ...).
    Exit requests (KeyboardInterrupt, SystemExit) are outside the model. *)

Inductive ExcClass :=
| Exception
| OSError
| FileNotFoundError
| ImportError
| ModuleNotFoundError
| OtherError (name : string).

Global Instance ExcClass_eq_dec : EqDecision ExcClass.
Proof. solve_decision. Defined.

(** The class itself followed by its bases, most derived first. *)
Definition mro (c : ExcClass) : list ExcClass :=
  match c with
  | Exception => [Exception]
  | OSError => [OSError; Exception]
  | FileNotFoundError => [FileNotFoundError; OSError; Exception]
  | ImportError => [ImportError; Exception]
  | ModuleNotFoundError => [ModuleNotFoundError; ImportError; Exception]
  | OtherError name => [OtherError name; Exception]
  end.

Definition issubclass (c d : ExcClass) : bool := bool_decide (d ∈ mro c).

Record PyExc := { exc_class : ExcClass; exc_repr : string }.

Definition isinstance (e : PyExc) (d : ExcClass) : bool :=
  issubclass (exc_class e) d.

Inductive Outcome (A : Type) :=
| Returned (a : A)
| Raised (e : PyExc).
Arguments Returned {A} a.
Arguments Raised {A} e.

(** What a call that yields nothing leaves behind. *)
Definition completion (r : option PyExc) : Outcome unit :=
  match r with
  | None => Returned ()
  | Some e => Raised e
  end.

(** ** Python values used by the entry point *)

(** [x or d] on an optional string, [d] a string: [None] and the empty
    string are falsy. *)
Definition or_str (x : option string) (d : string) : string :=
  match x with
  | None => d
  | Some s => if bool_decide (s = "") then d else s
  end.

(** [x or None] *)
Definition or_None (x : option string) : option string :=
  match x with
  | None => None
  | Some s => if bool_decide (s = "") then None else Some s
  end.

Definition is_upper (c : ascii) : bool :=
  let n := nat_of_ascii c in (65 <=? n) && (n <=? 90).

Definition ascii_lower (c : ascii) : ascii :=
  if is_upper c then ascii_of_nat (nat_of_ascii c + 32) else c.

(** [str.lower] *)
Fixpoint lower (s : string) : string :=
  match s with
  | EmptyString => EmptyString
  | String c s' => String (ascii_lower c) (lower s')
  end.

Fixpoint has_upper (s : string) : bool :=
  match s with
  | EmptyString => false
  | String c s' => is_upper c || has_upper s'
  end.

(** Comparison [a >= b] of two tuples of integers: the first position
    where they differ decides; when one is a prefix of the other, the
    longer one is the greater. *)
Fixpoint tuple_ge (a b : list nat) : bool :=
  match a, b with
  | _, [] => true
  | [], _ :: _ => false
  | x :: a', y :: b' => if x =? y then tuple_ge a' b' else y <? x
  end.

(** ** The client interface

    [GanglionClient] is imported from [textual_web/ganglion_client.py].
    The entry point uses its constructor, [add_terminal], [add_app], the
    [app_count] property and the [run] coroutine; an implementation is
    any type providing the five.  The object is mutated in place by the
    two registration calls, which the embedding renders as functions to
    the updated client. *)

Class GanglionClient (Environment Config Client : Type) := {
  GanglionClient_init :
    string -> Config -> Environment -> option string -> Client;
  add_terminal : Client -> string -> string -> string -> Client;
  add_app : Client -> string -> string -> string -> Client;
  app_count : Client -> nat;
  run : Client -> option PyExc
}.

Section Bootstrap.

Context {Environment Config Client : Type}.
Context `{!GanglionClient Environment Config Client}.

(** ** The host

    Everything the entry point reads from outside itself: the constants
    module, the environment registry, the installed package version, the
    file system (through [Path.absolute] and [load_config]), the process
    environment, the identity generator, whether [uvloop] can be
    imported, the interpreter version, and what printing a message on
    the error console ends with. *)

Record Host := {
  constants_DEBUG : bool;
  constants_ENVIRONMENT : string;
  constants_API_KEY : option string;
  ENVIRONMENTS : gmap string Environment;
  version : string;
  Path_absolute : string -> string;
  load_config : string -> Outcome Config;
  default_config : Config;
  os_environ : gmap string string;
  identity_generate : string;
  import_uvloop : option PyExc;
  sys_version_info : list nat;
  repr_str : string -> string;
  repr_Environment : Environment -> string;
  Console_print : string -> option PyExc
}.

(** The arguments click passes to [app]. *)
Record Intent := {
  config : option string;
  environment : string;
  terminal : bool;
  api_key : option string;
  signup : bool;
  welcome : bool
}.

Inductive LogLevel := INFO | WARNING | CRITICAL.

(** One constructor per call the entry point makes to a collaborator. *)
Inductive Event :=
| EvGetEnvironment (name : string)
| EvSignup (env : Environment)
| EvWelcome
| EvPrintDisclaimer
| EvLog (level : LogLevel) (msg : string)
| EvLoadConfig (path : string)
| EvDefaultConfig
| EvErrorConsole (msg : string)
| EvPrint (cfg : Config)
| EvNewClient (path : string) (cfg : Config) (env : Environment)
    (key : option string)
| EvGenerate
| EvAddTerminal (name command slug : string)
| EvAppCount (n : nat)
| EvAddApp (name command slug : string)
| EvImportUvloop
| EvUvloopInstall
| EvAsyncioRun (c : Client)
| EvRunnerEnter
| EvRunnerRun (c : Client)
| EvRunnerExit.

(** ** The monad *)

Definition M (A : Type) : Type := list Event * Outcome A.

Definition ret {A} (a : A) : M A := ([], Returned a).

Definition raise {A} (e : PyExc) : M A := ([], Raised e).

Definition bind {A B} (m : M A) (k : A -> M B) : M B :=
  match m.2 with
  | Returned a => (m.1 ++ (k a).1, (k a).2)
  | Raised e => (m.1, Raised e)
  end.

Definition emit (ev : Event) : M unit := ([ev], Returned ()).

(** A call to a collaborator: the call is recorded, then its outcome is
    the outcome of the computation. *)
Definition call {A} (ev : Event) (r : Outcome A) : M A := ([ev], r).

Definition trace {A} (m : M A) : list Event := m.1.
Definition outcome {A} (m : M A) : Outcome A := m.2.

Notation "x <- m ;; k" := (bind m (fun x => k))
  (at level 100, m at next level, right associativity, only parsing).
Notation "m ;; k" := (bind m (fun _ => k))
  (at level 100, right associativity, only parsing).

(** [if b: m] *)
Definition when (b : bool) (m : M unit) : M unit :=
  if b then m else ret ().

(** The first [except] clause whose class the exception is an instance
    of. *)
Fixpoint handler_for {A} (e : PyExc) (hs : list (ExcClass * (PyExc -> M A)))
  : option (M A) :=
  match hs with
  | [] => None
  | (cls, hnd) :: hs' =>
      if isinstance e cls then Some (hnd e) else handler_for e hs'
  end.

(** [try: body / except cls as e: ... / else: orelse].  An exception that
    no clause matches leaves the statement; [orelse] runs outside the
    protection of the clauses. *)
Definition try_except_else {A B} (body : M A)
    (handlers : list (ExcClass * (PyExc -> M B))) (orelse : A -> M B) : M B :=
  match body.2 with
  | Returned a => (body.1 ++ (orelse a).1, (orelse a).2)
  | Raised e =>
      match handler_for e handlers with
      | Some hnd => (body.1 ++ hnd.1, hnd.2)
      | None => (body.1, Raised e)
      end
  end.

Definition try_except {A} (body : M A)
    (handlers : list (ExcClass * (PyExc -> M A))) : M A :=
  try_except_else body handlers ret.

(** [with asyncio.Runner(...) as runner: body]: the runner is closed when
    the block is left, whether [body] returned or raised, and an
    exception of [body] then goes on. *)
Definition with_Runner {A} (body : M A) : M A :=
  emit EvRunnerEnter ;;
  (body.1 ++ [EvRunnerExit], body.2).

(** ** Collaborators *)

(** Modelled from the spec: [get_environment] and the [ENVIRONMENTS]
    registry are defined in [textual_web/environment.py], which is not
    among the sources.  The resolver maps a profile name to the descriptor
    the registry holds for it, has no side effect, and fails fatally
    (UnrecognizedEnvironment, a programming error) on a name the registry
    does not hold. *)
Definition get_environment (h : Host) (name : string) : M Environment :=
  call (EvGetEnvironment name)
    match ENVIRONMENTS h !! name with
    | Some descriptor => Returned descriptor
    | None =>
        Raised {| exc_class := OtherError "UnrecognizedEnvironment";
                  exc_repr := name |}
    end.

(** [SignUpApp.signup(_environment)] and [WelcomeApp().run()]: the two
    interactive flows; the embedding records that they ran. *)
Definition SignUpApp_signup (env : Environment) : M unit := emit (EvSignup env).
Definition WelcomeApp_run : M unit := emit EvWelcome.

Definition print_disclaimer : M unit := emit EvPrintDisclaimer.
Definition log_info (msg : string) : M unit := emit (EvLog INFO msg).
Definition log_warning (msg : string) : M unit := emit (EvLog WARNING msg).
Definition log_critical (msg : string) : M unit := emit (EvLog CRITICAL msg).

(** [error_console.print(msg)].  The console renders the markup it finds
    in the text before writing it, and raises a MarkupError on a closing
    tag that matches no open tag; nothing is written then.  The host
    tells what printing a given message ends with. *)
Definition error_console_print (h : Host) (msg : string) : M unit :=
  call (EvErrorConsole msg) (completion (Console_print h msg)).

(** [os.environ.get(key, default)] *)
Definition os_environ_get (h : Host) (key dflt : string) : string :=
  default dflt (os_environ h !! key).

(** [asyncio.run(client.run())] and [runner.run(client.run())]: the
    coroutine is driven to completion; what it raises goes on. *)
Definition asyncio_run (c : Client) : M unit :=
  call (EvAsyncioRun c) (completion (run c)).
Definition runner_run (c : Client) : M unit :=
  call (EvRunnerRun c) (completion (run c)).

(** ** The entry point *)

(** Lines 120-133: the configuration document, or [None] when loading
    failed and the entry point returns. *)
Definition resolve_config (h : Host) (i : Intent) : M (option Config) :=
  match config i with
  | Some config =>
      let path := Path_absolute h config in
      log_info ("loading config from " +:+ repr_str h path) ;;
      try_except
        (_config <- call (EvLoadConfig path) (load_config h path) ;;
         ret (Some _config))
        [ (FileNotFoundError, fun _ =>
             log_critical "Config not found" ;;
             ret None);
          (Exception, fun error =>
             error_console_print h
               ("Failed to load config from " +:+ repr_str h path +:+ "; "
                +:+ exc_repr error) ;;
             ret None) ]
  | None =>
      log_info "No --config specified, using defaults." ;;
      _config <- call EvDefaultConfig (Returned (default_config h)) ;;
      ret (Some _config)
  end.

(** Lines 144-150: the terminal session when asked for, then the default
    application when the client holds no application. *)
Definition seed_sessions (h : Host) (i : Intent) (c : Client) : M Client :=
  c <- (if terminal i then
          generated <- call EvGenerate (Returned (identity_generate h)) ;;
          let command := os_environ_get h "SHELL" "bin/sh" in
          let slug := lower generated in
          emit (EvAddTerminal "Terminal" command slug) ;;
          ret (add_terminal c "Terminal" command slug)
        else ret c) ;;
  n <- call (EvAppCount (app_count c)) (Returned (app_count c)) ;;
  if n =? 0 then
    emit (EvAddApp "Welcome" "textual-web --welcome" "welcome") ;;
    ret (add_app c "Welcome" "textual-web --welcome" "welcome")
  else ret c.

(** Lines 152-162: the event loop that drives [run]. *)
Definition start_runtime (h : Host) (c : Client) : M unit :=
  try_except_else
    (call EvImportUvloop (completion (import_uvloop h)))
    [ (ImportError, fun _ => asyncio_run c) ]
    (fun _ =>
       if tuple_ge (sys_version_info h) [3; 11] then
         with_Runner (runner_run c)
       else
         emit EvUvloopInstall ;;
         asyncio_run c).

Definition app (h : Host) (i : Intent) : M unit :=
  _environment <- get_environment h (environment i) ;;
  if signup i then
    SignUpApp_signup _environment ;;
    ret ()
  else if welcome i then
    WelcomeApp_run ;;
    ret ()
  else
    let VERSION := version h in
    print_disclaimer ;;
    log_info ("version='" +:+ VERSION +:+ "'") ;;
    log_info ("environment=" +:+ repr_Environment h _environment) ;;
    when (constants_DEBUG h)
      (log_warning "DEBUG env var is set; logs may be verbose!") ;;
    loaded <- resolve_config h i ;;
    match loaded with
    | None => ret ()
    | Some _config =>
        when (constants_DEBUG h) (emit (EvPrint _config)) ;;
        ganglion_client <-
          call (EvNewClient (or_str (config i) "./") _config _environment
                  (or_None (api_key i)))
            (Returned (GanglionClient_init (or_str (config i) "./") _config
                         _environment (or_None (api_key i)))) ;;
        ganglion_client <- seed_sessions h i ganglion_client ;;
        start_runtime h ganglion_client
    end.

(** ** The command-line layer

    [app] is a click command.  The decorators of lines 60-75 give every
    option its default and restrict [--environment] to
    [click.Choice(list(ENVIRONMENTS))]; click calls the function only when
    the value passes. *)

(** The options as found on the command line: [None] for an option that
    was not given. *)
Record CommandLine := {
  opt_config : option string;
  opt_environment : option string;
  opt_api_key : option string;
  opt_terminal : bool;
  opt_signup : bool;
  opt_welcome : bool
}.

(** [click.Choice(choices)] converting a value: the value itself when it
    is one of the choices (the comparison is case sensitive). *)
Definition click_Choice (choices : list string) (value : string)
  : option string :=
  if bool_decide (value ∈ choices) then Some value else None.

(** [list(ENVIRONMENTS)]: the keys of the registry. *)
Definition environment_names (h : Host) : list string :=
  (map_to_list (ENVIRONMENTS h)).*1.

Inductive Invocation :=
| UsageError (value : string)
| Called (i : Intent) (r : M unit).

Definition command (h : Host) (cl : CommandLine) : Invocation :=
  let value := default (constants_ENVIRONMENT h) (opt_environment cl) in
  match click_Choice (environment_names h) value with
  | None => UsageError value
  | Some environment =>
      let i := {| config := opt_config cl;
                  environment := environment;
                  terminal := opt_terminal cl;
                  api_key := match opt_api_key cl with
                             | Some key => Some key
                             | None => constants_API_KEY h
                             end;
                  signup := opt_signup cl;
                  welcome := opt_welcome cl |} in
      Called i (app h i)
  end.

(** ** Observing a trace *)

(** How many events of a trace satisfy a test. *)
Definition count (p : Event -> bool) (tr : list Event) : nat :=
  length (List.filter p tr).

Definition is_flow (ev : Event) : bool :=
  match ev with
  | EvSignup _ | EvWelcome => true
  | _ => false
  end.

Definition is_lookup (ev : Event) : bool :=
  match ev with EvGetEnvironment _ => true | _ => false end.

Definition is_generate (ev : Event) : bool :=
  match ev with EvGenerate => true | _ => false end.

Definition is_add_terminal (ev : Event) : bool :=
  match ev with EvAddTerminal _ _ _ => true | _ => false end.

Definition is_app_count (ev : Event) : bool :=
  match ev with EvAppCount _ => true | _ => false end.

Definition is_add_app (ev : Event) : bool :=
  match ev with EvAddApp _ _ _ => true | _ => false end.

(** The calls that drive the client's [run] coroutine. *)
Definition drives_run (ev : Event) : bool :=
  match ev with
  | EvAsyncioRun _ | EvRunnerRun _ => true
  | _ => false
  end.

(** The calls of the runtime start-up (lines 152-162). *)
Definition is_runtime (ev : Event) : bool :=
  match ev with
  | EvImportUvloop | EvUvloopInstall | EvAsyncioRun _
  | EvRunnerEnter | EvRunnerRun _ | EvRunnerExit => true
  | _ => false
  end.

(** The calls made once the configuration is resolved (lines 135-162):
    client construction, session registration, runtime start-up. *)
Definition after_config (ev : Event) : bool :=
  match ev with
  | EvPrint _ | EvNewClient _ _ _ _ | EvGenerate | EvAddTerminal _ _ _
  | EvAppCount _ | EvAddApp _ _ _ => true
  | _ => is_runtime ev
  end.

(** The calls of the configuration resolution (lines 120-133). *)
Definition is_config (ev : Event) : bool :=
  match ev with
  | EvLoadConfig _ | EvDefaultConfig | EvErrorConsole _ => true
  | _ => false
  end.

(** What the terminal registration is meant to ensure: a positive count
    wherever it is read, and no registration of an application. *)
Definition terminal_suffices (ev : Event) : Prop :=
  match ev with
  | EvAppCount n => 1 <= n
  | EvAddApp _ _ _ => False
  | _ => True
  end.

(** Further tests, one per kind of call. *)
Definition is_load (ev : Event) : bool :=
  match ev with EvLoadConfig _ => true | _ => false end.

Definition is_default_config (ev : Event) : bool :=
  match ev with EvDefaultConfig => true | _ => false end.

Definition is_new_client (ev : Event) : bool :=
  match ev with EvNewClient _ _ _ _ => true | _ => false end.

Definition is_runner_enter (ev : Event) : bool :=
  match ev with EvRunnerEnter => true | _ => false end.

Definition is_runner_exit (ev : Event) : bool :=
  match ev with EvRunnerExit => true | _ => false end.

Definition is_install (ev : Event) : bool :=
  match ev with EvUvloopInstall => true | _ => false end.

(** The two reports of a failed load: the critical log entry and the
    line on the error console. *)
Definition is_diagnostic (ev : Event) : bool :=
  match ev with
  | EvLog CRITICAL _ | EvErrorConsole _ => true
  | _ => false
  end.

(** The output made only under [constants.DEBUG]: the warning of line
    118 and the print of line 138. *)
Definition debug_only (ev : Event) : bool :=
  match ev with
  | EvLog WARNING _ | EvPrint _ => true
  | _ => false
  end.

(** The host with [constants.DEBUG] set to [b], all else equal. *)
Definition with_DEBUG (b : bool) (h : Host) : Host :=
  {| constants_DEBUG := b;
     constants_ENVIRONMENT := constants_ENVIRONMENT h;
     constants_API_KEY := constants_API_KEY h;
     ENVIRONMENTS := ENVIRONMENTS h;
     version := version h;
     Path_absolute := Path_absolute h;
     load_config := load_config h;
     default_config := default_config h;
     os_environ := os_environ h;
     identity_generate := identity_generate h;
     import_uvloop := import_uvloop h;
     sys_version_info := sys_version_info h;
     repr_str := repr_str h;
     repr_Environment := repr_Environment h;
     Console_print := Console_print h |}.

End Bootstrap.

Arguments Host : clear implicits.
Arguments Event : clear implicits.
Arguments M : clear implicits.

(** ** The client, from its specification *)

Inductive SessionKind := InteractiveTerminal | Application.

Record SessionRegistration := {
  session_kind : SessionKind;
  session_label : string;
  session_command : string;
  session_identifier : string
}.

Section ClientOrchestrator.

Context {Environment Config : Type}.

(** The sessions a configuration document already describes, and what
    publishing a given set of sessions ends with. *)
Variable configured_sessions : Config -> list SessionRegistration.
Variable publish : list SessionRegistration -> option PyExc.

(** Modelled from the spec: the [GanglionClient] class is defined in
    [textual_web/ganglion_client.py], which is not among the sources.
    The orchestrator holds an ordered collection of session registrations
    and a reference to the resolved environment, configuration and
    credentials; [registerTerminal] appends an interactive-terminal
    session, [registerApplication] appends an application session, and
    [pendingCount] is the number of sessions registered so far. *)
Record ClientOrchestrator := {
  orch_path : string;
  orch_config : Config;
  orch_environment : Environment;
  orch_api_key : option string;
  sessions : list SessionRegistration
}.

Definition registerTerminal (c : ClientOrchestrator)
    (label shellCommand identifier : string) : ClientOrchestrator :=
  {| orch_path := orch_path c;
     orch_config := orch_config c;
     orch_environment := orch_environment c;
     orch_api_key := orch_api_key c;
     sessions := sessions c ++
       [ {| session_kind := InteractiveTerminal;
            session_label := label;
            session_command := shellCommand;
            session_identifier := identifier |} ] |}.

Definition registerApplication (c : ClientOrchestrator)
    (label launchCommand identifier : string) : ClientOrchestrator :=
  {| orch_path := orch_path c;
     orch_config := orch_config c;
     orch_environment := orch_environment c;
     orch_api_key := orch_api_key c;
     sessions := sessions c ++
       [ {| session_kind := Application;
            session_label := label;
            session_command := launchCommand;
            session_identifier := identifier |} ] |}.

Definition pendingCount (c : ClientOrchestrator) : nat := length (sessions c).

#[local] Instance ClientOrchestrator_client
  : GanglionClient Environment Config ClientOrchestrator := {
  GanglionClient_init path cfg env key :=
    {| orch_path := path;
       orch_config := cfg;
       orch_environment := env;
       orch_api_key := key;
       sessions := configured_sessions cfg |};
  add_terminal := registerTerminal;
  add_app := registerApplication;
  app_count := pendingCount;
  run c := publish (sessions c)
}.

End ClientOrchestrator.

(** * The stages of a run, in closed form

    What each stage of the entry point calls and yields, written as plain
    lists and values; the lemmas of the next part show that [app] computes
    exactly these. *)

Section ClosedForms.

Context {Environment Config Client : Type}.
Context `{!GanglionClient Environment Config Client}.

Local Abbreviation Host := (Host Environment Config).
Local Abbreviation Event := (Event Environment Config Client).

Implicit Types (h : Host) (i : Intent) (c : Client).

(** The one line a failed load leaves: the critical log entry for a
    missing file, the error-console line for anything else. *)
Definition config_message h (path : string) (e : PyExc) : Event :=
  if isinstance e FileNotFoundError then EvLog CRITICAL "Config not found"
  else EvErrorConsole
         ("Failed to load config from " +:+ repr_str h path +:+ "; "
          +:+ exc_repr e).

(** The calls of lines 120-133. *)
Definition config_events h i : list Event :=
  match config i with
  | None =>
      [EvLog INFO "No --config specified, using defaults."; EvDefaultConfig]
  | Some p =>
      let path := Path_absolute h p in
      [EvLog INFO ("loading config from " +:+ repr_str h path);
       EvLoadConfig path] ++
      match load_config h path with
      | Returned _ => []
      | Raised e => [config_message h path e]
      end
  end.

(** The line of the error console for a load that failed with [e]. *)
Definition failure_report h (path : string) (e : PyExc) : string :=
  "Failed to load config from " +:+ repr_str h path +:+ "; " +:+ exc_repr e.

(** How a run ends that stops at a failed load: normally after the
    critical log entry, and as the print on the error console ends
    otherwise. *)
Definition failed_load_outcome h (path : string) (e : PyExc)
  : Outcome unit :=
  if isinstance e FileNotFoundError then Returned ()
  else completion (Console_print h (failure_report h path e)).

(** How lines 120-133 end: with the document, with [None] after a
    failed load that was reported, or with what the report raised. *)
Definition config_outcome h i : Outcome (option Config) :=
  match config i with
  | None => Returned (Some (default_config h))
  | Some p =>
      match load_config h (Path_absolute h p) with
      | Returned cfg => Returned (Some cfg)
      | Raised e =>
          match failed_load_outcome h (Path_absolute h p) e with
          | Returned _ => Returned None
          | Raised e' => Raised e'
          end
      end
  end.

(** How a run ends that stops at the configuration. *)
Definition config_end h i : Outcome unit :=
  match config_outcome h i with
  | Returned _ => Returned ()
  | Raised e => Raised e
  end.

(** The document lines 120-133 end with, if any. *)
Definition resolved h i : option Config :=
  match config i with
  | None => Some (default_config h)
  | Some p =>
      match load_config h (Path_absolute h p) with
      | Returned cfg => Some cfg
      | Raised _ => None
      end
  end.

(** The calls of lines 144-147. *)
Definition terminal_events h i : list Event :=
  if terminal i then
    [EvGenerate;
     EvAddTerminal "Terminal" (os_environ_get h "SHELL" "bin/sh")
       (lower (identity_generate h))]
  else [].

(** The client after lines 144-147. *)
Definition with_terminal h i c : Client :=
  if terminal i then
    add_terminal c "Terminal" (os_environ_get h "SHELL" "bin/sh")
      (lower (identity_generate h))
  else c.

(** The registration of lines 149-150, when it is made. *)
Definition default_events c : list Event :=
  if app_count c =? 0 then
    [EvAddApp "Welcome" "textual-web --welcome" "welcome"]
  else [].

(** The client after lines 149-150. *)
Definition with_default c : Client :=
  if app_count c =? 0 then
    add_app c "Welcome" "textual-web --welcome" "welcome"
  else c.

(** The calls of lines 157-162, once uvloop is imported. *)
Definition loop_events h c : list Event :=
  if tuple_ge (sys_version_info h) [3; 11] then
    [EvRunnerEnter; EvRunnerRun c; EvRunnerExit]
  else [EvUvloopInstall; EvAsyncioRun c].

(** The calls of lines 97 and 113-118. *)
Definition preamble h i (descriptor : Environment) : list Event :=
  [EvGetEnvironment (environment i);
   EvPrintDisclaimer;
   EvLog INFO ("version='" +:+ version h +:+ "'");
   EvLog INFO ("environment=" +:+ repr_Environment h descriptor)] ++
  (if constants_DEBUG h
   then [EvLog WARNING "DEBUG env var is set; logs may be verbose!"]
   else []).

(** The client lines 140-142 construct. *)
Definition new_client h i (descriptor : Environment) (cfg : Config) : Client :=
  GanglionClient_init (or_str (config i) "./") cfg descriptor
    (or_None (api_key i)).

(** The calls of lines 135-142. *)
Definition construction h i (descriptor : Environment) (cfg : Config)
  : list Event :=
  (if constants_DEBUG h then [EvPrint cfg] else []) ++
  [EvNewClient (or_str (config i) "./") cfg descriptor (or_None (api_key i))].

(** The client as it stands when the runtime is started. *)
Definition seeded_client h i (descriptor : Environment) (cfg : Config)
  : Client :=
  with_default (with_terminal h i (new_client h i descriptor cfg)).

(** The five ways a call can go, each with its trace and outcome. *)
Inductive Run h i : Prop :=
| RunUnknown :
    ENVIRONMENTS h !! environment i = None ->
    app h i =
    ([EvGetEnvironment (environment i)],
     Raised {| exc_class := OtherError "UnrecognizedEnvironment";
               exc_repr := environment i |}) ->
    Run h i
| RunSignup descriptor :
    ENVIRONMENTS h !! environment i = Some descriptor ->
    signup i = true ->
    app h i =
    ([EvGetEnvironment (environment i); EvSignup descriptor], Returned ()) ->
    Run h i
| RunWelcome descriptor :
    ENVIRONMENTS h !! environment i = Some descriptor ->
    signup i = false ->
    welcome i = true ->
    app h i = ([EvGetEnvironment (environment i); EvWelcome], Returned ()) ->
    Run h i
| RunConfigFailed descriptor p e :
    ENVIRONMENTS h !! environment i = Some descriptor ->
    signup i = false ->
    welcome i = false ->
    config i = Some p ->
    load_config h (Path_absolute h p) = Raised e ->
    app h i =
    (preamble h i descriptor ++
     [EvLog INFO
        ("loading config from " +:+ repr_str h (Path_absolute h p));
      EvLoadConfig (Path_absolute h p);
      config_message h (Path_absolute h p) e],
     failed_load_outcome h (Path_absolute h p) e) ->
    Run h i
| RunNormal descriptor cfg :
    ENVIRONMENTS h !! environment i = Some descriptor ->
    signup i = false ->
    welcome i = false ->
    resolved h i = Some cfg ->
    app h i =
    (preamble h i descriptor ++ config_events h i ++
       construction h i descriptor cfg ++
       (terminal_events h i ++
          EvAppCount (app_count (with_terminal h i
                                   (new_client h i descriptor cfg))) ::
          default_events (with_terminal h i (new_client h i descriptor cfg)))
       ++ trace (start_runtime h (seeded_client h i descriptor cfg)),
     outcome (start_runtime h (seeded_client h i descriptor cfg))) ->
    Run h i.

End ClosedForms.

(** * Sample hosts

    A host with two environment profiles, one readable configuration
    file and a client that starts without sessions, in several
    variations: with or without SHELL, with uvloop missing, broken or
    present, on several Python versions. *)

Definition no_sessions (cfg : string) : list SessionRegistration := [].
Definition publish_all (ss : list SessionRegistration) : option PyExc := None.

Abbreviation Orchestrator :=
  (ClientOrchestrator (Environment:=string) (Config:=string)).

Definition plain_client : GanglionClient string string Orchestrator :=
  ClientOrchestrator_client no_sessions publish_all.
#[local] Existing Instance plain_client.

Definition not_found : PyExc :=
  {| exc_class := FileNotFoundError;
     exc_repr := "FileNotFoundError(2, 'No such file or directory')" |}.

Definition no_uvloop : PyExc :=
  {| exc_class := ModuleNotFoundError;
     exc_repr := "ModuleNotFoundError('No module named uvloop')" |}.

Definition broken_uvloop : PyExc :=
  {| exc_class := OtherError "RuntimeError";
     exc_repr := "RuntimeError('uvloop failed to initialise')" |}.

Definition station (shell : option string) (probe : option PyExc)
    (python : list nat) : Host string string :=
  {| constants_DEBUG := false;
     constants_ENVIRONMENT := "prod";
     constants_API_KEY := None;
     ENVIRONMENTS :=
       <["prod" := "https://textual-web.io"]>
         (<["local" := "ws://127.0.0.1:8080"]> ∅);
     version := "0.4.2";
     Path_absolute := fun p => "/srv/" +:+ p;
     load_config := fun path =>
       if bool_decide (path = "/srv/ganglion.toml")
       then Returned "[account]"
       else Raised not_found;
     default_config := "";
     os_environ :=
       match shell with
       | Some sh => <["SHELL" := sh]> ∅
       | None => ∅
       end;
     identity_generate := "4VQ8KDW1XK2M";
     import_uvloop := probe;
     sys_version_info := python;
     repr_str := fun s => "'" +:+ s +:+ "'";
     repr_Environment := fun url => "Environment(" +:+ url +:+ ")";
     Console_print := fun msg => None |}.

Definition desk : Host string string :=
  station (Some "/bin/zsh") (Some no_uvloop) [3; 12; 1].

Definition invocation (cfg : option string) (term sign welc : bool) : Intent :=
  {| config := cfg; environment := "prod"; terminal := term;
     api_key := None; signup := sign; welcome := welc |}.

(** A machine where importing uvloop raises something other than an
    ImportError. *)
Definition faulty : Host string string :=
  station (Some "/bin/zsh") (Some broken_uvloop) [3; 12; 1].

(** A machine with uvloop on Python 3.12, and one on Python 3.10 without
    SHELL in the environment. *)
Definition fast : Host string string :=
  station (Some "/bin/zsh") None [3; 12; 1].
Definition bare : Host string string := station None None [3; 10; 4].

(** The desk with a key in [constants.API_KEY]. *)
Definition keyed : Host string string :=
  {| constants_DEBUG := constants_DEBUG desk;
     constants_ENVIRONMENT := constants_ENVIRONMENT desk;
     constants_API_KEY := Some "K3Y";
     ENVIRONMENTS := ENVIRONMENTS desk;
     version := version desk;
     Path_absolute := Path_absolute desk;
     load_config := load_config desk;
     default_config := default_config desk;
     os_environ := os_environ desk;
     identity_generate := identity_generate desk;
     import_uvloop := import_uvloop desk;
     sys_version_info := sys_version_info desk;
     repr_str := repr_str desk;
     repr_Environment := repr_Environment desk;
     Console_print := Console_print desk |}.

(** A desk where the file [[/x].toml] is there but does not parse.  The
    name makes the diagnostic hold the closing tag [[/x]], which matches
    no open tag: printing it raises. *)
Definition not_toml : PyExc :=
  {| exc_class := OtherError "TOMLDecodeError";
     exc_repr := "TOMLDecodeError('Invalid statement (at line 1, column 1)')" |}.

Definition unmatched_tag : PyExc :=
  {| exc_class := OtherError "MarkupError";
     exc_repr := "MarkupError('closing tag does not match any open tag')" |}.

Definition marked : Host string string :=
  {| constants_DEBUG := constants_DEBUG desk;
     constants_ENVIRONMENT := constants_ENVIRONMENT desk;
     constants_API_KEY := constants_API_KEY desk;
     ENVIRONMENTS := ENVIRONMENTS desk;
     version := version desk;
     Path_absolute := Path_absolute desk;
     load_config := fun path =>
       if bool_decide (path = "/srv/[/x].toml")
       then Raised not_toml
       else load_config desk path;
     default_config := default_config desk;
     os_environ := os_environ desk;
     identity_generate := identity_generate desk;
     import_uvloop := import_uvloop desk;
     sys_version_info := sys_version_info desk;
     repr_str := repr_str desk;
     repr_Environment := repr_Environment desk;
     Console_print := fun msg =>
       match index 0 "[/x]" msg with
       | Some _ => Some unmatched_tag
       | None => None
       end |}.

(** A command line with nothing but [--api-key], and one with nothing. *)
Definition only_key (key : option string) : CommandLine :=
  {| opt_config := None; opt_environment := None; opt_api_key := key;
     opt_terminal := false; opt_signup := false; opt_welcome := false |}.

(** * Properties of the bootstrap *)

(** ** Proof automation *)

Ltac unfold_calls :=
  unfold get_environment, SignUpApp_signup, WelcomeApp_run, print_disclaimer,
    log_info, log_warning, log_critical, error_console_print, asyncio_run,
    runner_run, with_Runner, try_except, try_except_else, when, bind, call,
    emit, ret, raise, trace, outcome in *.

Ltac cases :=
  repeat match goal with
         | |- context [if ?b then _ else _] => destruct b eqn:?
         | |- context [match ?x with _ => _ end] => destruct x eqn:?
         end.

(** Facts about one stage's events, each by running through its cases. *)
Ltac stage_facts := intros; cases; simpl; repeat constructor.

(** A fact about every event of a stage, from a stronger one at hand. *)
Ltac from_stage :=
  eapply Forall_impl; [eassumption | simpl; intros; intuition].

(** The same when the fact at hand speaks of another test: the tests are
    compared constructor by constructor. *)
Ltac by_stage lem :=
  eapply Forall_impl; [apply lem |];
  let ev := fresh "ev" in
  intros ev ?; destruct ev; simpl in *; intuition congruence.

Section Properties.

Context {Environment Config Client : Type}.
Context `{!GanglionClient Environment Config Client}.

Local Abbreviation Host := (Host Environment Config).
Local Abbreviation Event := (Event Environment Config Client).
Local Abbreviation M := (M Environment Config Client).
Local Abbreviation resolve_config := (resolve_config (Client:=Client)).
Local Abbreviation get_environment := (get_environment (Client:=Client)).
Local Abbreviation preamble := (preamble (Client:=Client)).
Local Abbreviation config_events := (config_events (Client:=Client)).
Local Abbreviation construction := (construction (Client:=Client)).
Local Abbreviation terminal_events := (terminal_events (Client:=Client)).

Implicit Types (h : Host) (i : Intent) (c : Client) (ev : Event).

(** ** The monad *)

Lemma bind_returned {A B} (m : M A) (k : A -> M B) a :
  outcome m = Returned a ->
  bind m k = (trace m ++ trace (k a), outcome (k a)).
Proof. unfold bind, outcome, trace. by intros ->. Qed.

Lemma bind_raised {A B} (m : M A) (k : A -> M B) e :
  outcome m = Raised e -> bind m k = (trace m, Raised e).
Proof. unfold bind, outcome, trace. by intros ->. Qed.

Lemma trace_pair {A} (tr : list Event) (r : Outcome A) : trace (tr, r) = tr.
Proof. reflexivity. Qed.

Lemma outcome_pair {A} (tr : list Event) (r : Outcome A) : outcome (tr, r) = r.
Proof. reflexivity. Qed.

Lemma isinstance_Exception (e : PyExc) : isinstance e Exception = true.
Proof. destruct e as [[] ?]; reflexivity. Qed.

(** ** The three stages of a normal run, in closed form *)

Lemma resolve_config_eq h i :
  resolve_config h i = (config_events h i, config_outcome h i).
Proof.
  unfold resolve_config, config_events, config_outcome, config_message,
    failed_load_outcome, failure_report.
  destruct (config i) as [p|]; [|reflexivity].
  unfold_calls; simpl.
  destruct (load_config h (Path_absolute h p)) as [cfg|e]; simpl; [reflexivity|].
  rewrite isinstance_Exception.
  destruct (isinstance e FileNotFoundError); simpl; [reflexivity|].
  destruct (Console_print h _); reflexivity.
Qed.

Lemma config_outcome_resolved h i cfg :
  config_outcome h i = Returned (Some cfg) <-> resolved h i = Some cfg.
Proof.
  unfold config_outcome, resolved.
  destruct (config i) as [p|]; [|split; congruence].
  destruct (load_config h (Path_absolute h p)) as [cfg'|e];
    [split; congruence|].
  destruct (failed_load_outcome h (Path_absolute h p) e); split; congruence.
Qed.

Lemma config_outcome_failed h i :
  resolved h i = None ->
  config_outcome h i =
  match config_end h i with
  | Returned _ => Returned None
  | Raised e => Raised e
  end.
Proof.
  unfold config_end, config_outcome, resolved.
  destruct (config i) as [p|]; [|congruence].
  destruct (load_config h (Path_absolute h p)) as [cfg'|e]; [congruence|].
  by destruct (failed_load_outcome h (Path_absolute h p) e).
Qed.

Lemma seed_sessions_eq h i c :
  seed_sessions h i c =
  (terminal_events h i ++
     EvAppCount (app_count (with_terminal h i c)) ::
     default_events (with_terminal h i c),
   Returned (with_default (with_terminal h i c))).
Proof.
  unfold seed_sessions, terminal_events, with_terminal, default_events,
    with_default.
  unfold_calls.
  destruct (terminal i); simpl;
    match goal with |- context [?n =? 0] => destruct (n =? 0) end;
    reflexivity.
Qed.

Lemma start_runtime_eq h c :
  start_runtime h c =
  match import_uvloop h with
  | None => (EvImportUvloop :: loop_events h c, completion (run c))
  | Some e =>
      if isinstance e ImportError
      then ([EvImportUvloop; EvAsyncioRun c], completion (run c))
      else ([EvImportUvloop], Raised e)
  end.
Proof.
  unfold start_runtime, loop_events. unfold_calls.
  destruct (import_uvloop h) as [e|]; simpl.
  - destruct (isinstance e ImportError); reflexivity.
  - destruct (tuple_ge (sys_version_info h) [3; 11]); reflexivity.
Qed.

Lemma app_unknown_environment h i :
  ENVIRONMENTS h !! environment i = None ->
  app h i =
  ([EvGetEnvironment (environment i)],
   Raised {| exc_class := OtherError "UnrecognizedEnvironment";
             exc_repr := environment i |}).
Proof.
  intros Henv. unfold app, get_environment, bind, call. simpl.
  by rewrite Henv.
Qed.

Lemma app_signup h i descriptor :
  ENVIRONMENTS h !! environment i = Some descriptor ->
  signup i = true ->
  app h i =
  ([EvGetEnvironment (environment i); EvSignup descriptor], Returned ()).
Proof.
  intros Henv Hs. unfold app. unfold_calls. simpl.
  by rewrite Henv, Hs.
Qed.

Lemma app_welcome h i descriptor :
  ENVIRONMENTS h !! environment i = Some descriptor ->
  signup i = false ->
  welcome i = true ->
  app h i = ([EvGetEnvironment (environment i); EvWelcome], Returned ()).
Proof.
  intros Henv Hs Hw. unfold app. unfold_calls. simpl.
  by rewrite Henv, Hs, Hw.
Qed.

Lemma app_config_failed h i descriptor :
  ENVIRONMENTS h !! environment i = Some descriptor ->
  signup i = false ->
  welcome i = false ->
  resolved h i = None ->
  app h i = (preamble h i descriptor ++ config_events h i, config_end h i).
Proof.
  intros Henv Hs Hw Hr. unfold app, preamble.
  rewrite resolve_config_eq, (config_outcome_failed h i Hr).
  destruct (config_end h i) as [[]|e]; unfold_calls; simpl;
    rewrite Henv, Hs, Hw; simpl;
    destruct (constants_DEBUG h); simpl; by rewrite ?app_nil_r.
Qed.

Lemma app_normal_run h i descriptor cfg :
  ENVIRONMENTS h !! environment i = Some descriptor ->
  signup i = false ->
  welcome i = false ->
  resolved h i = Some cfg ->
  let c := with_default (with_terminal h i (new_client h i descriptor cfg)) in
  app h i =
  (preamble h i descriptor ++ config_events h i ++
     construction h i descriptor cfg ++
     trace (seed_sessions h i (new_client h i descriptor cfg)) ++
     trace (start_runtime h c),
   outcome (start_runtime h c)).
Proof.
  intros Henv Hs Hw Hr c. subst c.
  unfold app, preamble, construction, new_client.
  rewrite resolve_config_eq, (proj2 (config_outcome_resolved h i cfg) Hr).
  unfold_calls. simpl.
  rewrite Henv, Hs, Hw. simpl.
  rewrite !seed_sessions_eq. simpl.
  destruct (constants_DEBUG h); simpl; by rewrite <- ?app_assoc.
Qed.

Lemma resolve_config_outcome h i cfg :
  outcome (resolve_config h i) = Returned (Some cfg) <->
  resolved h i = Some cfg.
Proof.
  rewrite resolve_config_eq. unfold outcome. simpl.
  apply config_outcome_resolved.
Qed.

Lemma count_app (p : Event -> bool) (a b : list Event) :
  count p (a ++ b) = count p a + count p b.
Proof. unfold count. by rewrite List.filter_app, length_app. Qed.

Lemma count_cons (p : Event -> bool) ev (tr : list Event) :
  count p (ev :: tr) = (if p ev then 1 else 0) + count p tr.
Proof. unfold count. simpl. by destruct (p ev). Qed.

Lemma count_0_Forall (p : Event -> bool) (tr : list Event) :
  count p tr = 0 <-> Forall (fun ev => p ev = false) tr.
Proof.
  unfold count. induction tr as [|ev tr IH]; simpl.
  - split; [constructor | done].
  - rewrite Forall_cons. destruct (p ev); simpl.
    + split; [done | by intros [? _]].
    + rewrite IH. split; [done | by intros [_ ?]].
Qed.

Lemma preamble_events h i descriptor :
  Forall (fun ev => is_flow ev = false /\ after_config ev = false /\
                    is_config ev = false)
    (preamble h i descriptor).
Proof. unfold preamble. stage_facts. Qed.

Lemma config_events_only h i :
  Forall (fun ev => is_flow ev = false /\ after_config ev = false)
    (config_events h i).
Proof. unfold config_events, config_message. stage_facts. Qed.

Lemma construction_events h i descriptor cfg :
  Forall (fun ev => is_flow ev = false /\ is_runtime ev = false /\
                    is_generate ev = false /\ is_add_terminal ev = false /\
                    is_app_count ev = false /\ is_add_app ev = false)
    (construction h i descriptor cfg).
Proof. unfold construction. stage_facts. Qed.

Lemma seed_events h i c :
  Forall (fun ev => is_flow ev = false /\ is_runtime ev = false)
    (trace (seed_sessions h i c)).
Proof.
  rewrite seed_sessions_eq. unfold trace, terminal_events, default_events.
  simpl. stage_facts.
Qed.

Lemma runtime_events h c :
  Forall (fun ev => is_flow ev = false /\ is_generate ev = false /\
                    is_add_terminal ev = false /\ is_app_count ev = false /\
                    is_add_app ev = false)
    (trace (start_runtime h c)).
Proof.
  rewrite start_runtime_eq. unfold trace, loop_events. stage_facts.
Qed.

Lemma terminal_events_only h i :
  Forall (fun ev => is_flow ev = false /\ is_runtime ev = false /\
                    is_app_count ev = false /\ is_add_app ev = false)
    (terminal_events h i).
Proof. unfold terminal_events. stage_facts. Qed.

(** Every call either never gets past configuration resolution, or is a
    normal run whose trace is the five stages in a row. *)
Lemma app_cases h i :
  Forall (fun ev => after_config ev = false) (trace (app h i)) \/
  exists descriptor cfg,
    ENVIRONMENTS h !! environment i = Some descriptor /\
    signup i = false /\ welcome i = false /\ resolved h i = Some cfg /\
    app h i =
    (preamble h i descriptor ++ config_events h i ++
       construction h i descriptor cfg ++
       (terminal_events h i ++
          EvAppCount (app_count (with_terminal h i
                                   (new_client h i descriptor cfg))) ::
          default_events (with_terminal h i (new_client h i descriptor cfg)))
       ++ trace (start_runtime h (seeded_client h i descriptor cfg)),
     outcome (start_runtime h (seeded_client h i descriptor cfg))).
Proof.
  destruct (ENVIRONMENTS h !! environment i) as [descriptor|] eqn:Henv;
    [|left; rewrite app_unknown_environment by done; repeat constructor].
  destruct (signup i) eqn:Hs;
    [left; rewrite (app_signup h i descriptor) by done; repeat constructor|].
  destruct (welcome i) eqn:Hw;
    [left; rewrite (app_welcome h i descriptor) by done; repeat constructor|].
  destruct (resolved h i) as [cfg|] eqn:Hr.
  - right. exists descriptor, cfg. repeat split; try done.
    rewrite (app_normal_run h i descriptor cfg) by done.
    by rewrite seed_sessions_eq, trace_pair.
  - left. rewrite (app_config_failed h i descriptor) by done.
    rewrite trace_pair, Forall_app. split.
    + by_stage (preamble_events h i descriptor).
    + by_stage (config_events_only h i).
Qed.

(** ** Entry branches *)

(** C1. The three entry branches exclude one another and are tried in the
    order signup, welcome, normal run: with the signup flag the call does
    the environment lookup and the signup flow and returns, whatever the
    welcome flag is; otherwise with the welcome flag it does the lookup
    and the welcome flow and returns, so that no configuration is
    resolved, no client built, no session registered and no runtime
    started; otherwise the normal run proceeds (it opens with the
    disclaimer) and neither flow is called. *)
Theorem entry_branch_priority h i descriptor :
  ENVIRONMENTS h !! environment i = Some descriptor ->
  if signup i then
    app h i =
    ([EvGetEnvironment (environment i); EvSignup descriptor], Returned ())
  else if welcome i then
    app h i = ([EvGetEnvironment (environment i); EvWelcome], Returned ())
  else
    (exists rest,
       trace (app h i) =
       EvGetEnvironment (environment i) :: EvPrintDisclaimer :: rest) /\
    Forall (fun ev => is_flow ev = false) (trace (app h i)).
Proof.
  intros Henv.
  destruct (signup i) eqn:Hs; [exact (app_signup h i descriptor Henv Hs)|].
  destruct (welcome i) eqn:Hw; [exact (app_welcome h i descriptor Henv Hs Hw)|].
  destruct (resolved h i) as [cfg|] eqn:Hr.
  - rewrite (app_normal_run h i descriptor cfg) by done.
    rewrite trace_pair. split; [unfold preamble; simpl; by eexists|].
    rewrite !Forall_app.
    pose proof (preamble_events h i descriptor).
    pose proof (config_events_only h i).
    pose proof (construction_events h i descriptor cfg).
    pose proof (seed_events h i (new_client h i descriptor cfg)).
    pose proof (runtime_events h
      (with_default (with_terminal h i (new_client h i descriptor cfg)))).
    repeat split; from_stage.
  - rewrite (app_config_failed h i descriptor) by done.
    rewrite trace_pair. split; [unfold preamble; simpl; by eexists|].
    rewrite Forall_app.
    pose proof (preamble_events h i descriptor).
    pose proof (config_events_only h i).
    split; from_stage.
Qed.

(** ** Configuration failures *)


(** ** Session seeding *)

(** C2. On the normal run, once the configuration is resolved, the
    client's [app_count] is read exactly once, after the terminal step;
    when the value read is zero the very next call registers the default
    application, and otherwise nothing follows the check but the runtime
    start-up.  No other [add_app] call is made, so the default
    application is registered once or not at all. *)
Theorem default_seeded_iff_none_pending h i descriptor cfg :
  ENVIRONMENTS h !! environment i = Some descriptor ->
  signup i = false ->
  welcome i = false ->
  outcome (resolve_config h i) = Returned (Some cfg) ->
  let c0 := GanglionClient_init (or_str (config i) "./") cfg descriptor
              (or_None (api_key i)) in
  let c1 := if terminal i
            then add_terminal c0 "Terminal"
                   (os_environ_get h "SHELL" "bin/sh")
                   (lower (identity_generate h))
            else c0 in
  exists before after,
    trace (app h i) =
    before ++
    EvAppCount (app_count c1) ::
    (if app_count c1 =? 0
     then [EvAddApp "Welcome" "textual-web --welcome" "welcome"]
     else []) ++
    after /\
    count is_add_app (before ++ after) = 0 /\
    count is_app_count (before ++ after) = 0 /\
    count is_add_app (trace (app h i)) = if app_count c1 =? 0 then 1 else 0.
Proof.
  intros Henv Hs Hw Hcfg c0 c1. apply resolve_config_outcome in Hcfg.
  rewrite (app_normal_run h i descriptor cfg) by done.
  rewrite trace_pair, seed_sessions_eq, trace_pair.
  change (with_terminal h i (new_client h i descriptor cfg)) with c1.
  set (c := with_default c1).
  exists (preamble h i descriptor ++ config_events h i ++
            construction h i descriptor cfg ++ terminal_events h i),
    (trace (start_runtime h c)).
  assert (forall p : Event -> bool,
    (forall ev, after_config ev = false -> p ev = false) ->
    (forall ev, is_runtime ev = true -> p ev = false) ->
    (forall ev, p ev = true -> is_app_count ev = true \/ is_add_app ev = true) ->
    count p ((preamble h i descriptor ++ config_events h i ++
                construction h i descriptor cfg ++ terminal_events h i) ++
             trace (start_runtime h c)) = 0) as Hquiet.
  { intros q Hq1 Hq2 Hq3. apply count_0_Forall. rewrite !Forall_app.
    assert (forall ev, is_app_count ev = false -> is_add_app ev = false ->
                       q ev = false) as Hq.
    { intros ev ? ?. destruct (q ev) eqn:E; [|done].
      destruct (Hq3 ev E); congruence. }
    repeat split.
    - eapply Forall_impl; [apply (preamble_events h i descriptor)|].
      intros ev (_ & ? & _). by apply Hq1.
    - eapply Forall_impl; [apply (config_events_only h i)|].
      intros ev (_ & ?). by apply Hq1.
    - eapply Forall_impl; [apply (construction_events h i descriptor cfg)|].
      intros ev (_ & _ & _ & _ & ? & ?). by apply Hq.
    - eapply Forall_impl; [apply (terminal_events_only h i)|].
      intros ev (_ & _ & ? & ?). by apply Hq.
    - eapply Forall_impl; [apply (runtime_events h c)|].
      intros ev (_ & _ & _ & ? & ?). by apply Hq. }
  assert (count is_add_app
            ((preamble h i descriptor ++ config_events h i ++
                construction h i descriptor cfg ++ terminal_events h i) ++
             trace (start_runtime h c)) = 0) as Hadd.
  { apply Hquiet; intros ev; destruct ev; simpl; auto. }
  repeat split.
  - unfold default_events. by rewrite <- !app_assoc.
  - done.
  - apply Hquiet; intros ev; destruct ev; simpl; auto.
  - rewrite !count_app in Hadd. rewrite !count_app, count_cons.
    unfold default_events.
    destruct (app_count c1 =? 0); simpl; rewrite ?count_cons; simpl;
      change (count is_add_app []) with 0; lia.
Qed.

(** Where the two registration calls can occur, and with which
    arguments. *)
Lemma registration_calls h i ev :
  ev ∈ trace (app h i) ->
  (is_add_terminal ev = true ->
   terminal i = true /\
   ev = EvAddTerminal "Terminal" (os_environ_get h "SHELL" "bin/sh")
          (lower (identity_generate h))) /\
  (is_add_app ev = true ->
   ev = EvAddApp "Welcome" "textual-web --welcome" "welcome").
Proof.
  intros Hin.
  assert (forall (P : Event -> Prop) tr,
            Forall P tr -> ev ∈ tr -> P ev) as Hall.
  { intros P tr HP ?. rewrite Forall_forall in HP. by apply HP. }
  destruct (app_cases h i) as [Hquiet|(descriptor & cfg & _ & _ & _ & _ & Heq)].
  - apply (Hall _ _ Hquiet) in Hin. destruct ev; simpl in *; done.
  - rewrite Heq, trace_pair in Hin. clear Heq.
    rewrite !elem_of_app, elem_of_cons in Hin.
    destruct Hin as [Hin|[Hin|[Hin|[[Hin|[->|Hin]]|Hin]]]].
    + apply (Hall _ _ (preamble_events h i descriptor)) in Hin.
      destruct ev; simpl in *; intuition congruence.
    + apply (Hall _ _ (config_events_only h i)) in Hin.
      destruct ev; simpl in *; intuition congruence.
    + apply (Hall _ _ (construction_events h i descriptor cfg)) in Hin.
      destruct ev; simpl in *; intuition congruence.
    + unfold terminal_events in Hin. destruct (terminal i).
      * rewrite !elem_of_cons, elem_of_nil in Hin.
        destruct Hin as [->|[->|[]]]; simpl; split; done.
      * by rewrite elem_of_nil in Hin.
    + simpl. split; done.
    + unfold default_events in Hin.
      destruct (app_count _ =? 0).
      * rewrite elem_of_cons, elem_of_nil in Hin.
        destruct Hin as [->|[]]; simpl; split; done.
      * by rewrite elem_of_nil in Hin.
    + apply (Hall _ _ (runtime_events h _)) in Hin.
      destruct ev; simpl in *; intuition congruence.
Qed.

(** ** Lower-casing *)

Lemma ascii_lower_not_upper (c : ascii) : is_upper (ascii_lower c) = false.
Proof. destruct c as [[] [] [] [] [] [] [] []]; reflexivity. Qed.

Lemma lower_has_no_upper (s : string) : has_upper (lower s) = false.
Proof.
  induction s as [|c s IH]; simpl; [done|].
  by rewrite ascii_lower_not_upper, IH.
Qed.

Lemma lower_length (s : string) : String.length (lower s) = String.length s.
Proof. induction s as [|c s IH]; simpl; congruence. Qed.

Lemma lower_nonempty (s : string) : s <> "" -> lower s <> "".
Proof. by destruct s. Qed.

(** C7, as the code has it.  On a normal run with the terminal flag whose
    configuration resolves, [add_terminal] is called exactly once, right
    after the one call of the identity generator.  Its command is the
    value of SHELL in the process environment, or the fixed default when
    SHELL is not defined; its identifier is the generated name
    lower-cased, which has no upper-case character and is as long as the
    generated name, hence non-empty as the generator's names are. *)
Theorem terminal_session_registered h i descriptor cfg :
  ENVIRONMENTS h !! environment i = Some descriptor ->
  signup i = false ->
  welcome i = false ->
  terminal i = true ->
  outcome (resolve_config h i) = Returned (Some cfg) ->
  identity_generate h <> "" ->
  let command := default "bin/sh" (os_environ h !! "SHELL") in
  let slug := lower (identity_generate h) in
  (exists before after,
     trace (app h i) =
     before ++ [EvGenerate; EvAddTerminal "Terminal" command slug] ++ after /\
     count is_generate (before ++ after) = 0 /\
     count is_add_terminal (before ++ after) = 0) /\
  count is_add_terminal (trace (app h i)) = 1 /\
  slug <> "" /\
  String.length slug = String.length (identity_generate h) /\
  has_upper slug = false.
Proof.
  intros Henv Hs Hw Ht Hcfg Hgen command slug.
  apply resolve_config_outcome in Hcfg.
  rewrite (app_normal_run h i descriptor cfg) by done.
  rewrite trace_pair, seed_sessions_eq, trace_pair.
  unfold terminal_events. rewrite Ht.
  fold command slug. fold (os_environ_get h "SHELL" "bin/sh").
  set (c1 := with_terminal h i (new_client h i descriptor cfg)).
  set (c := with_default c1).
  set (before := preamble h i descriptor ++ config_events h i ++
                 construction h i descriptor cfg).
  set (after := EvAppCount (app_count c1) :: default_events c1 ++
                trace (start_runtime h c)).
  assert (forall p : Event -> bool,
    (forall ev, p ev = true ->
                is_generate ev = true \/ is_add_terminal ev = true) ->
    count p (before ++ after) = 0) as Hquiet.
  { intros q Hq. apply count_0_Forall.
    assert (forall ev, is_generate ev = false -> is_add_terminal ev = false ->
                       q ev = false) as Hq'.
    { intros ev ? ?. destruct (q ev) eqn:E; [|done].
      destruct (Hq ev E); congruence. }
    unfold before, after. rewrite !Forall_app, Forall_cons, Forall_app.
    repeat split.
    - eapply Forall_impl; [apply (preamble_events h i descriptor)|].
      intros ev (_ & ? & _). apply Hq'; destruct ev; simpl in *; congruence.
    - eapply Forall_impl; [apply (config_events_only h i)|].
      intros ev (_ & ?). apply Hq'; destruct ev; simpl in *; congruence.
    - eapply Forall_impl; [apply (construction_events h i descriptor cfg)|].
      intros ev (_ & _ & ? & ? & _). by apply Hq'.
    - by apply Hq'.
    - unfold default_events. destruct (app_count c1 =? 0);
        repeat constructor. by apply Hq'.
    - eapply Forall_impl; [apply (runtime_events h c)|].
      intros ev (_ & ? & ? & _). by apply Hq'. }
  assert (count is_add_terminal (before ++ after) = 0) as Hterm by
    (apply Hquiet; auto).
  match goal with
  | |- context [count is_add_terminal ?tr = 1] =>
      assert (tr = before ++
                   [EvGenerate; EvAddTerminal "Terminal" command slug] ++ after)
        as -> by (unfold before, after; by rewrite <- !app_assoc)
  end.
  repeat split.
  - exists before, after. repeat split; [apply Hquiet; auto | done].
  - rewrite !count_app in *. unfold count at 2. simpl. lia.
  - by apply lower_nonempty.
  - apply lower_length.
  - apply lower_has_no_upper.
Qed.

(** The seeding stage sits in every normal run whose configuration
    resolves. *)
Lemma seeding_in_trace h i descriptor cfg ev :
  ENVIRONMENTS h !! environment i = Some descriptor ->
  signup i = false ->
  welcome i = false ->
  resolved h i = Some cfg ->
  ev ∈ terminal_events h i ++
       default_events (with_terminal h i (new_client h i descriptor cfg)) ->
  ev ∈ trace (app h i).
Proof.
  intros Henv Hs Hw Hr Hin.
  rewrite (app_normal_run h i descriptor cfg) by done.
  rewrite trace_pair, seed_sessions_eq, trace_pair.
  rewrite !elem_of_app, elem_of_cons. rewrite elem_of_app in Hin.
  tauto.
Qed.

(** C9. When SHELL is not defined in the process environment, every
    terminal registration passes the literal ["bin/sh"] as its command,
    and a normal run with the terminal flag whose configuration resolves
    does make that registration.  The literal does not start with a
    slash: it is a relative path, and not ["/bin/sh"]. *)
Theorem default_shell_is_relative h i :
  os_environ h !! "SHELL" = None ->
  (forall name command slug,
     EvAddTerminal name command slug ∈ trace (app h i) ->
     command = "bin/sh") /\
  (forall descriptor cfg,
     ENVIRONMENTS h !! environment i = Some descriptor ->
     signup i = false ->
     welcome i = false ->
     terminal i = true ->
     outcome (resolve_config h i) = Returned (Some cfg) ->
     EvAddTerminal "Terminal" "bin/sh" (lower (identity_generate h))
       ∈ trace (app h i)) /\
  String.get 0 "bin/sh" <> Some "/"%char /\
  "bin/sh" <> "/bin/sh".
Proof.
  intros Hshell.
  assert (os_environ_get h "SHELL" "bin/sh" = "bin/sh") as Hget
    by (unfold os_environ_get; by rewrite Hshell).
  repeat split; [| |done|done].
  - intros name command slug Hin.
    destruct (registration_calls h i _ Hin) as [Hterm _].
    destruct (Hterm eq_refl) as [_ Heq]. rewrite Hget in Heq. congruence.
  - intros descriptor cfg Henv Hs Hw Ht Hcfg.
    apply resolve_config_outcome in Hcfg.
    apply (seeding_in_trace h i descriptor cfg); try done.
    unfold terminal_events. rewrite Ht, Hget.
    rewrite elem_of_app, !elem_of_cons. tauto.
Qed.

(** C10. Every registration of an application made by the entry point
    has the label ["Welcome"], the command ["textual-web --welcome"] and
    the identifier ["welcome"]; a normal run whose configuration resolves
    and whose client holds no application after the terminal step does
    make it.  The identifier does not come from the identity generator:
    any two runs, on any two hosts, that seed the default application
    make the very same call. *)
Theorem default_application_is_constant h i h' i' :
  (forall name command slug,
     EvAddApp name command slug ∈ trace (app h i) ->
     name = "Welcome" /\ command = "textual-web --welcome" /\
     slug = "welcome") /\
  (forall descriptor cfg,
     ENVIRONMENTS h !! environment i = Some descriptor ->
     signup i = false ->
     welcome i = false ->
     outcome (resolve_config h i) = Returned (Some cfg) ->
     let c0 := GanglionClient_init (or_str (config i) "./") cfg descriptor
                 (or_None (api_key i)) in
     let c1 := if terminal i
               then add_terminal c0 "Terminal"
                      (os_environ_get h "SHELL" "bin/sh")
                      (lower (identity_generate h))
               else c0 in
     app_count c1 = 0 ->
     EvAddApp "Welcome" "textual-web --welcome" "welcome" ∈ trace (app h i)) /\
  (forall ev ev',
     ev ∈ trace (app h i) -> is_add_app ev = true ->
     ev' ∈ trace (app h' i') -> is_add_app ev' = true ->
     ev = ev').
Proof.
  split; [|split].
  - intros name command slug Hin.
    pose proof (proj2 (registration_calls h i _ Hin) eq_refl) as Happ.
    by simplify_eq.
  - intros descriptor cfg Henv Hs Hw Hcfg c0 c1 Hcount.
    apply resolve_config_outcome in Hcfg.
    apply (seeding_in_trace h i descriptor cfg); try done.
    unfold default_events.
    change (with_terminal h i (new_client h i descriptor cfg)) with c1.
    rewrite Hcount. simpl. rewrite elem_of_app, !elem_of_cons. tauto.
  - intros ev ev' Hin Hev Hin' Hev'.
    rewrite (proj2 (registration_calls h i _ Hin) Hev).
    by rewrite (proj2 (registration_calls h' i' _ Hin') Hev').
Qed.

(** ** Runtime start-up *)

(** [sys.version_info >= (3, 11)], spelled out on the major and minor
    numbers. *)
Lemma version_at_least_3_11 (major minor : nat) (rest : list nat) :
  tuple_ge (major :: minor :: rest) [3; 11] = true <->
  3 < major \/ (major = 3 /\ 11 <= minor).
Proof.
  simpl. destruct (major =? 3) eqn:Hmajor.
  - apply Nat.eqb_eq in Hmajor as ->.
    destruct (minor =? 11) eqn:Hminor.
    + apply Nat.eqb_eq in Hminor as ->.
      destruct rest; (split; [lia|done]).
    + apply Nat.eqb_neq in Hminor. rewrite Nat.ltb_lt. lia.
  - apply Nat.eqb_neq in Hmajor. rewrite Nat.ltb_lt. lia.
Qed.

Lemma normal_run_before_startup h i descriptor cfg :
  ENVIRONMENTS h !! environment i = Some descriptor ->
  signup i = false ->
  welcome i = false ->
  resolved h i = Some cfg ->
  exists before,
    Forall (fun ev => is_runtime ev = false) before /\
    app h i =
    (before ++ trace (start_runtime h (seeded_client h i descriptor cfg)),
     outcome (start_runtime h (seeded_client h i descriptor cfg))).
Proof.
  intros Henv Hs Hw Hr.
  exists (preamble h i descriptor ++ config_events h i ++
          construction h i descriptor cfg ++
          trace (seed_sessions h i (new_client h i descriptor cfg))).
  split.
  - rewrite !Forall_app. repeat split.
    + by_stage (preamble_events h i descriptor).
    + by_stage (config_events_only h i).
    + by_stage (construction_events h i descriptor cfg).
    + by_stage (seed_events h i (new_client h i descriptor cfg)).
  - rewrite (app_normal_run h i descriptor cfg) by done.
    by rewrite <- !app_assoc.
Qed.

(** C5, as the code has it.  On a normal run whose configuration
    resolves and whose import of uvloop either succeeds or fails with an
    ImportError, the start-up is exactly one of three sequences and
    drives [run] exactly once: without uvloop, [asyncio.run]; with uvloop
    on 3.11 or newer, a runner that is entered, drives [run] and is left,
    whatever [run] ends with; with uvloop on an older version,
    [uvloop.install] and then [asyncio.run].  The call ends as [run]
    ends. *)
Theorem runtime_started_once h i descriptor cfg :
  ENVIRONMENTS h !! environment i = Some descriptor ->
  signup i = false ->
  welcome i = false ->
  outcome (resolve_config h i) = Returned (Some cfg) ->
  (forall e, import_uvloop h = Some e -> isinstance e ImportError = true) ->
  let c := seeded_client h i descriptor cfg in
  (exists before,
     Forall (fun ev => is_runtime ev = false) before /\
     app h i =
     (before ++
      EvImportUvloop ::
      match import_uvloop h with
      | Some _ => [EvAsyncioRun c]
      | None =>
          if tuple_ge (sys_version_info h) [3; 11]
          then [EvRunnerEnter; EvRunnerRun c; EvRunnerExit]
          else [EvUvloopInstall; EvAsyncioRun c]
      end,
      completion (run c))) /\
  count drives_run (trace (app h i)) = 1.
Proof.
  intros Henv Hs Hw Hcfg Hprobe c. apply resolve_config_outcome in Hcfg.
  destruct (normal_run_before_startup h i descriptor cfg)
    as (before & Hbefore & Heq); try done.
  fold c in Heq. rewrite Heq, start_runtime_eq. clear Heq.
  assert (count drives_run before = 0) as Hquiet.
  { apply count_0_Forall. eapply Forall_impl; [exact Hbefore|].
    intros ev ?. destruct ev; simpl in *; congruence. }
  destruct (import_uvloop h) as [e|] eqn:Himport.
  - rewrite (Hprobe e eq_refl). unfold trace, outcome. simpl. split.
    + by exists before.
    + rewrite count_app, Hquiet. reflexivity.
  - unfold trace, outcome, loop_events. simpl. split.
    + by exists before.
    + rewrite count_app, Hquiet.
      destruct (tuple_ge (sys_version_info h) [3; 11]); reflexivity.
Qed.

(** C6, as the code has it.  An ImportError raised by the import of
    uvloop is absorbed: the run goes on to [asyncio.run], and the call
    ends as [run] ends, so that the probe's ImportError never leaves the
    entry point. *)
Theorem import_error_falls_through h i descriptor cfg e :
  ENVIRONMENTS h !! environment i = Some descriptor ->
  signup i = false ->
  welcome i = false ->
  outcome (resolve_config h i) = Returned (Some cfg) ->
  import_uvloop h = Some e ->
  isinstance e ImportError = true ->
  let c := seeded_client h i descriptor cfg in
  exists before,
    Forall (fun ev => is_runtime ev = false) before /\
    app h i =
    (before ++ [EvImportUvloop; EvAsyncioRun c], completion (run c)).
Proof.
  intros Henv Hs Hw Hcfg Himport He c. apply resolve_config_outcome in Hcfg.
  destruct (normal_run_before_startup h i descriptor cfg)
    as (before & Hbefore & Heq); try done.
  exists before. split; [done|].
  rewrite Heq, start_runtime_eq, Himport, He. reflexivity.
Qed.

(** ** Environment resolution *)

Lemma environment_names_spec h (name : string) :
  name ∈ environment_names h <-> is_Some (ENVIRONMENTS h !! name).
Proof.
  unfold environment_names. rewrite list_elem_of_fmap. split.
  - intros ([k d] & -> & Hin). apply elem_of_map_to_list in Hin. by eexists.
  - intros [d Hd]. exists (name, d). split; [done|].
    by apply elem_of_map_to_list.
Qed.

(** No stage after the first call consults the registry. *)
Lemma no_lookup_after_first h i (descriptor : Environment) (tr : list Event) :
  tr = config_events h i \/
  (exists cfg, tr = construction h i descriptor cfg) \/
  (exists c, tr = trace (seed_sessions h i c)) \/
  (exists c, tr = trace (start_runtime h c)) ->
  Forall (fun ev => is_lookup ev = false) tr.
Proof.
  intros [->|[[cfg ->]|[[c ->]|[c ->]]]].
  - unfold config_events, config_message. stage_facts.
  - unfold construction. stage_facts.
  - rewrite seed_sessions_eq, trace_pair.
    unfold terminal_events, default_events. stage_facts.
  - rewrite start_runtime_eq. unfold loop_events.
    cases; rewrite trace_pair; repeat constructor.
Qed.

(** The registry is looked up once, under the name the call received. *)
Lemma lookup_calls h i (name : string) :
  EvGetEnvironment name ∈ trace (app h i) -> name = environment i.
Proof.
  intros Hin.
  assert (forall tr : list Event,
            Forall (fun ev => is_lookup ev = false) tr ->
            EvGetEnvironment name ∈ tr -> False) as Hquiet.
  { intros tr Htr Hname. rewrite Forall_forall in Htr.
    by specialize (Htr _ Hname). }
  assert (EvGetEnvironment name ∈
            [EvGetEnvironment (environment i) : Event] ->
          name = environment i) as Hfirst.
  { rewrite elem_of_cons, elem_of_nil. by intros [[= ->]|[]]. }
  destruct (ENVIRONMENTS h !! environment i) as [descriptor|] eqn:Henv;
    [|rewrite app_unknown_environment in Hin by done; by apply Hfirst].
  assert (EvGetEnvironment name ∈ preamble h i descriptor ->
          name = environment i) as Hpreamble.
  { unfold preamble. rewrite elem_of_app, elem_of_cons.
    intros [[[= ->]|Hrest]|Hrest]; [done| |].
    - exfalso. revert Hrest. apply Hquiet. repeat constructor.
    - exfalso. revert Hrest. apply Hquiet.
      destruct (constants_DEBUG h); repeat constructor. }
  destruct (signup i) eqn:Hs.
  { rewrite (app_signup h i descriptor) in Hin by done.
    rewrite trace_pair, elem_of_cons in Hin.
    destruct Hin as [[= ->]|Hin]; [done|].
    exfalso. revert Hin. apply Hquiet. repeat constructor. }
  destruct (welcome i) eqn:Hw.
  { rewrite (app_welcome h i descriptor) in Hin by done.
    rewrite trace_pair, elem_of_cons in Hin.
    destruct Hin as [[= ->]|Hin]; [done|].
    exfalso. revert Hin. apply Hquiet. repeat constructor. }
  pose proof (no_lookup_after_first h i descriptor) as Hlater.
  destruct (resolved h i) as [cfg|] eqn:Hr.
  - rewrite (app_normal_run h i descriptor cfg) in Hin by done.
    rewrite trace_pair, !elem_of_app in Hin.
    destruct Hin as [?|[Hin|[Hin|[Hin|Hin]]]]; [by apply Hpreamble|..];
      exfalso; revert Hin; apply Hquiet, Hlater; eauto 6.
  - rewrite (app_config_failed h i descriptor) in Hin by done.
    rewrite trace_pair, !elem_of_app in Hin.
    destruct Hin as [?|Hin]; [by apply Hpreamble|].
    exfalso; revert Hin; apply Hquiet, Hlater; eauto.
Qed.

(** C8. The name under which the registry is consulted is always one of
    its keys.  A value of [--environment] (or its default) outside the
    key set is refused by the option layer, which then does not call the
    entry point at all; a value inside is passed on unchanged, and the
    only lookups the entry point makes are under that value.  For every
    key the resolver returns the descriptor the registry holds, and this
    depends on nothing but the registry and the name. *)
Theorem environment_always_resolves h cl :
  let value := default (constants_ENVIRONMENT h) (opt_environment cl) in
  (value ∉ environment_names h -> command h cl = UsageError value) /\
  (forall i r,
     command h cl = Called i r ->
     r = app h i /\
     environment i = value /\
     value ∈ environment_names h /\
     forall name,
       EvGetEnvironment name ∈ trace r -> name ∈ environment_names h) /\
  (forall name,
     name ∈ environment_names h ->
     exists descriptor,
       ENVIRONMENTS h !! name = Some descriptor /\
       get_environment h name =
       ([EvGetEnvironment name], Returned descriptor)) /\
  (forall h' name,
     ENVIRONMENTS h' = ENVIRONMENTS h ->
     get_environment h' name =
     get_environment h name).
Proof.
  intros value.
  assert (forall i r,
            command h cl = Called i r ->
            value ∈ environment_names h /\ environment i = value /\
            r = app h i) as Hcalled.
  { intros i r. unfold command, click_Choice. fold value.
    destruct (bool_decide (value ∈ environment_names h)) eqn:Hin; [|done].
    apply bool_decide_eq_true in Hin. intros [= <- <-]. done. }
  split; [|split; [|split]].
  - intros Hout. unfold command, click_Choice. fold value.
    by rewrite bool_decide_eq_false_2.
  - intros i r Hcall. destruct (Hcalled i r Hcall) as (Hin & Henv & ->).
    repeat split; try done.
    intros name Hname. by rewrite (lookup_calls h i name Hname), Henv.
  - intros name [descriptor Hd]%environment_names_spec.
    exists descriptor. split; [done|].
    unfold get_environment, call. by rewrite Hd.
  - intros h' name Heq. unfold get_environment. by rewrite Heq.
Qed.

End Properties.

(** * The bootstrap over the client of the specification *)

Section OrchestratedBootstrap.

Context {Environment Config : Type}.
Variable configured_sessions : Config -> list SessionRegistration.
Variable publish : list SessionRegistration -> option PyExc.

#[local] Existing Instance ClientOrchestrator_client.

Local Abbreviation Client :=
  (ClientOrchestrator (Environment:=Environment) (Config:=Config)).
Local Abbreviation Host := (Host Environment Config).
Local Abbreviation Event := (Event Environment Config Client).

Let orchestrator : GanglionClient Environment Config Client :=
  ClientOrchestrator_client configured_sessions publish.
#[local] Existing Instance orchestrator.

Lemma pendingCount_registerTerminal (c : Client) label shell identifier :
  pendingCount (registerTerminal c label shell identifier) =
  S (pendingCount c).
Proof. unfold pendingCount, registerTerminal. simpl. rewrite length_app. simpl. lia. Qed.

(** C3. On a normal run with the terminal flag, whenever the pending
    count is read it is at least 1, and the default application is never
    registered.  When the configuration resolves the count is indeed
    read, right after the terminal registration, and is one more than the
    number of sessions the client started with. *)
Theorem terminal_precludes_default (h : Host) (i : Intent) :
  signup i = false ->
  welcome i = false ->
  terminal i = true ->
  Forall terminal_suffices (trace (app h i)) /\
  count is_add_app (trace (app h i)) = 0 /\
  forall descriptor cfg,
    ENVIRONMENTS h !! environment i = Some descriptor ->
    outcome (resolve_config (Client:=Client) h i) = Returned (Some cfg) ->
    exists before after,
      trace (app h i) =
      before ++
      [EvAddTerminal "Terminal" (os_environ_get h "SHELL" "bin/sh")
         (lower (identity_generate h));
       EvAppCount (S (length (configured_sessions cfg)))] ++
      after.
Proof.
  intros Hs Hw Ht.
  assert (forall descriptor cfg,
            app_count (with_terminal h i (new_client h i descriptor cfg)) =
            S (length (configured_sessions cfg))) as Hcount.
  { intros descriptor cfg. unfold with_terminal. rewrite Ht. simpl.
    by rewrite pendingCount_registerTerminal. }
  assert (Forall terminal_suffices (trace (app h i))) as Hall.
  { destruct (app_cases h i)
      as [Hquiet|(descriptor & cfg & _ & _ & _ & _ & Heq)].
    - eapply Forall_impl; [exact Hquiet|].
      intros ev ?. destruct ev; simpl in *; done.
    - rewrite Heq, trace_pair. unfold default_events. rewrite !Hcount.
      change (S (length (configured_sessions cfg)) =? 0) with false.
      rewrite !Forall_app, Forall_cons.
      repeat split.
      + by_stage (preamble_events (Client:=Client) h i descriptor).
      + by_stage (config_events_only (Client:=Client) h i).
      + by_stage (construction_events (Client:=Client) h i descriptor cfg).
      + by_stage (terminal_events_only (Client:=Client) h i).
      + simpl. lia.
      + constructor.
      + by_stage (runtime_events h (seeded_client h i descriptor cfg)). }
  split; [done|]. split.
  - apply count_0_Forall. eapply Forall_impl; [exact Hall|].
    intros ev ?. destruct ev; simpl in *; done.
  - intros descriptor cfg Henv Hcfg. apply resolve_config_outcome in Hcfg.
    rewrite (app_normal_run h i descriptor cfg) by done.
    rewrite trace_pair, seed_sessions_eq, trace_pair, Hcount.
    unfold terminal_events. rewrite Ht.
    eexists (preamble h i descriptor ++ config_events h i ++
             construction h i descriptor cfg ++ [EvGenerate]), _.
    rewrite <- !app_assoc. simpl. reflexivity.
Qed.

End OrchestratedBootstrap.

(** * Further properties of the entry point *)

Section Runs.

Context {Environment Config Client : Type}.
Context `{!GanglionClient Environment Config Client}.

Local Abbreviation Host := (Host Environment Config).
Local Abbreviation Event := (Event Environment Config Client).
Local Abbreviation resolve_config := (resolve_config (Client:=Client)).
Local Abbreviation preamble := (preamble (Client:=Client)).
Local Abbreviation config_events := (config_events (Client:=Client)).
Local Abbreviation config_message := (config_message (Client:=Client)).
Local Abbreviation construction := (construction (Client:=Client)).
Local Abbreviation terminal_events := (terminal_events (Client:=Client)).

Implicit Types (h : Host) (i : Intent) (c : Client) (ev : Event).

Lemma app_run h i : Run h i.
Proof.
  destruct (ENVIRONMENTS h !! environment i) as [descriptor|] eqn:Henv;
    [|by apply RunUnknown, app_unknown_environment].
  destruct (signup i) eqn:Hs;
    [exact (RunSignup h i descriptor Henv Hs
              (app_signup h i descriptor Henv Hs))|].
  destruct (welcome i) eqn:Hw;
    [exact (RunWelcome h i descriptor Henv Hs Hw
              (app_welcome h i descriptor Henv Hs Hw))|].
  destruct (resolved h i) as [cfg|] eqn:Hr.
  - apply (RunNormal h i descriptor cfg); try done.
    rewrite (app_normal_run h i descriptor cfg) by done.
    by rewrite seed_sessions_eq, trace_pair.
  - unfold resolved in Hr.
    destruct (config i) as [p|] eqn:Hp; [|done].
    destruct (load_config h (Path_absolute h p)) as [cfg|e] eqn:Hload;
      [done|].
    apply (RunConfigFailed h i descriptor p e); try done.
    rewrite (app_config_failed h i descriptor); try done.
    + unfold config_events, config_end, config_outcome.
      rewrite Hp, Hload. f_equal.
      by destruct (failed_load_outcome h (Path_absolute h p) e) as [[]|].
    + unfold resolved. by rewrite Hp, Hload.
Qed.

Ltac run_cases h i :=
  destruct (app_run h i)
    as [Renv Req
       |rd Renv Rs Req
       |rd Renv Rs Rw Req
       |rd rp re Renv Rs Rw Rp Rload Req
       |rd rcfg Renv Rs Rw Rr Req].

Lemma completion_raised (r : option PyExc) (e : PyExc) :
  completion r = Raised e <-> r = Some e.
Proof. destruct r; simpl; split; congruence. Qed.

(** X1. The exceptions the entry point does not absorb.  On a normal
    run under a known environment, three exceptions go through [app] to
    its caller: what printing the diagnostic of a failed load raises
    (the load itself having failed with something other than a
    FileNotFoundError); what the import of uvloop raises when that is
    not an ImportError; and what [run] raises, whichever way it was
    started. *)
Theorem exceptions_leaving_app h i descriptor e :
  ENVIRONMENTS h !! environment i = Some descriptor ->
  signup i = false ->
  welcome i = false ->
  (forall p e0,
     config i = Some p ->
     load_config h (Path_absolute h p) = Raised e0 ->
     isinstance e0 FileNotFoundError = false ->
     Console_print h
       ("Failed to load config from " +:+ repr_str h (Path_absolute h p)
        +:+ "; " +:+ exc_repr e0) = Some e ->
     outcome (app h i) = Raised e) /\
  (forall cfg,
     outcome (resolve_config h i) = Returned (Some cfg) ->
     (import_uvloop h = Some e /\ isinstance e ImportError = false) \/
     ((import_uvloop h = None \/
       exists e', import_uvloop h = Some e' /\
                  isinstance e' ImportError = true) /\
      run (seeded_client h i descriptor cfg) = Some e) ->
     outcome (app h i) = Raised e).
Proof.
  intros Hd Hs Hw. split.
  - intros p e0 Hp Hload Hkind Hprint.
    rewrite (app_config_failed h i descriptor Hd Hs Hw)
      by (unfold resolved; by rewrite Hp, Hload).
    rewrite outcome_pair.
    unfold config_end, config_outcome, failed_load_outcome, failure_report.
    by rewrite Hp, Hload, Hkind, Hprint.
  - intros cfg Hcfg Hcase. apply resolve_config_outcome in Hcfg.
    rewrite (app_normal_run h i descriptor cfg Hd Hs Hw Hcfg).
    rewrite outcome_pair, start_runtime_eq.
    fold (seeded_client h i descriptor cfg).
    destruct Hcase as [[-> ->]|[[->|(e' & -> & ->)] ->]]; reflexivity.
Qed.

(** Every condition decided, innermost first. *)
Ltac decide_conditions :=
  repeat match goal with
         | |- context [if ?b then _ else _] =>
             lazymatch b with
             | context [if _ then _ else _] => fail
             | context [match _ with _ => _ end] => fail
             | _ => destruct b eqn:?; simpl
             end
         | |- context [match ?x with _ => _ end] =>
             lazymatch x with
             | context [if _ then _ else _] => fail
             | context [match _ with _ => _ end] => fail
             | _ => destruct x eqn:?; simpl
             end
         end.

(** Every stage written out. *)
Ltac unfold_stages :=
  rewrite ?start_runtime_eq;
  unfold preamble, config_events, config_message, construction,
    terminal_events, default_events, loop_events in *;
  unfold trace, outcome, count.

Ltac in_list H :=
  rewrite ?elem_of_app, ?elem_of_cons, ?elem_of_nil in H;
  intuition (try discriminate; simplify_eq; eauto).

(** The configuration of a normal run, back to the path and the load. *)
Ltac normal_config h i :=
  match goal with
  | Rr : resolved h i = Some _ |- _ =>
      unfold resolved in Rr;
      let p := fresh "rp" in
      let Rp := fresh "Rp" in
      let Rload := fresh "Rload" in
      destruct (config i) as [p|] eqn:Rp;
      [destruct (load_config h (Path_absolute h p)) eqn:Rload;
       [|discriminate Rr]|];
      simplify_eq
  end.

(** What is left after the analysis: arithmetic, a clash of hypotheses,
    or membership in an explicit list. *)
Ltac settle :=
  intros;
  first [ lia
        | congruence
        | match goal with
          | H : _ ∈ _ |- _ => solve [in_list H]
          end ].

Ltac rewrite_run h i :=
  run_cases h i;
  match goal with
  | Req : app h i = _ |- _ => rewrite Req in *; clear Req
  end;
  rewrite ?trace_pair, ?outcome_pair in *.

(** A statement about how many events of some kinds a run has: the
    count is taken stage by stage, and every condition decided. *)
Ltac count_run h i :=
  rewrite_run h i;
  rewrite ?count_app, ?count_cons;
  unfold_stages;
  try normal_config h i;
  simpl; decide_conditions; simpl; settle.

(** A statement about an event [Hin] says is in the run: the stage it
    is in is found first, and only that stage is taken apart. *)
Ltac member_run h i Hin :=
  rewrite_run h i;
  rewrite ?elem_of_app in Hin;
  repeat match type of Hin with
         | _ \/ _ => destruct Hin as [Hin|Hin]
         end;
  try normal_config h i;
  revert Hin; unfold_stages; simpl; decide_conditions; simpl;
  intros Hin; in_list Hin.

(** X2. The configuration has one source.  A call consults at most one of
    [load_config] and [default_config], and a normal run under a known
    environment consults exactly one: [load_config], on the absolute form
    of the given path, when [--config] is given, and [default_config]
    when it is not. *)
Theorem config_has_one_source h i :
  count is_load (trace (app h i)) +
  count is_default_config (trace (app h i)) <= 1 /\
  (forall path,
     EvLoadConfig path ∈ trace (app h i) ->
     exists p, config i = Some p /\ path = Path_absolute h p) /\
  (EvDefaultConfig ∈ trace (app h i) -> config i = None) /\
  (forall descriptor,
     ENVIRONMENTS h !! environment i = Some descriptor ->
     signup i = false ->
     welcome i = false ->
     count is_load (trace (app h i)) +
     count is_default_config (trace (app h i)) = 1).
Proof.
  split; [|split; [|split]].
  - count_run h i.
  - intros path Hin. member_run h i Hin.
  - intros Hin. member_run h i Hin.
  - intros descriptor Hd Hs Hw. count_run h i.
Qed.

(** An event [Hin] says is in the run, placed in its stage, with that
    stage taken apart and the others left alone. *)
Ltac stage_of h i Hin :=
  rewrite_run h i;
  rewrite ?elem_of_app in Hin;
  repeat match type of Hin with
         | _ \/ _ => destruct Hin as [Hin|Hin]
         end;
  try normal_config h i;
  revert Hin; unfold_stages; simpl; decide_conditions; simpl;
  intros Hin;
  rewrite ?elem_of_app, ?elem_of_cons, ?elem_of_nil in Hin.

Lemma or_str_nonempty (x : option string) : or_str x "./" <> "".
Proof.
  unfold or_str. destruct x as [s|]; [|done].
  case_bool_decide; done.
Qed.

Lemma or_None_nonempty (x : option string) : or_None x <> Some "".
Proof.
  unfold or_None. destruct x as [s|]; [|done].
  case_bool_decide; congruence.
Qed.

(** Where the constructor call can occur, and with which arguments. *)
Lemma new_client_calls h i path cfg env key :
  EvNewClient path cfg env key ∈ trace (app h i) ->
  resolved h i = Some cfg /\
  (signup i = false /\ welcome i = false) /\
  ENVIRONMENTS h !! environment i = Some env /\
  path = or_str (config i) "./" /\
  key = or_None (api_key i).
Proof.
  intros Hin.
  stage_of h i Hin;
    try (intuition (try discriminate; simplify_eq); fail);
    unfold resolved, or_str in *; rewrite ?Rp, ?Rload in *;
    simpl in *;
    repeat match goal with
           | H : bool_decide _ = _ |- _ => rewrite ?H in *; clear H
           end;
    intuition (try discriminate; simplify_eq; try done).
Qed.

(** X3. The client is built at most once, and only on a normal run whose
    configuration resolved: from that configuration, the descriptor of
    the named environment, the given path or ["./"] when the path is
    missing or empty, and the given key or [None] when the key is
    missing or empty.  It never receives an empty path or an empty key. *)
Theorem client_construction h i :
  count is_new_client (trace (app h i)) <= 1 /\
  (forall path cfg env key,
     EvNewClient path cfg env key ∈ trace (app h i) ->
     (signup i = false /\ welcome i = false) /\
     ENVIRONMENTS h !! environment i = Some env /\
     outcome (resolve_config h i) = Returned (Some cfg) /\
     (path = or_str (config i) "./" /\ path <> "") /\
     (key = or_None (api_key i) /\ key <> Some "")) /\
  (forall descriptor cfg,
     ENVIRONMENTS h !! environment i = Some descriptor ->
     signup i = false ->
     welcome i = false ->
     outcome (resolve_config h i) = Returned (Some cfg) ->
     EvNewClient (or_str (config i) "./") cfg descriptor
       (or_None (api_key i)) ∈ trace (app h i)).
Proof.
  split; [|split].
  - count_run h i.
  - intros path cfg env key Hin.
    destruct (new_client_calls h i path cfg env key Hin)
      as (Hr & ? & ? & -> & ->).
    repeat split; try tauto.
    + by apply resolve_config_outcome.
    + apply or_str_nonempty.
    + apply or_None_nonempty.
  - intros descriptor cfg Henv Hs Hw Hcfg.
    apply resolve_config_outcome in Hcfg.
    rewrite (app_normal_run h i descriptor cfg) by done.
    rewrite trace_pair, !elem_of_app. right. right. left.
    unfold construction. rewrite elem_of_app, elem_of_cons. by right; left.
Qed.

(** X4. Without [--config] a normal run cannot stop at the configuration
    stage: under a known environment it takes the default document,
    reports nothing, builds the client and gets as far as the import of
    uvloop. *)
Theorem defaults_always_start h i descriptor :
  ENVIRONMENTS h !! environment i = Some descriptor ->
  signup i = false ->
  welcome i = false ->
  config i = None ->
  outcome (resolve_config h i) = Returned (Some (default_config h)) /\
  count is_diagnostic (trace (app h i)) = 0 /\
  EvNewClient "./" (default_config h) descriptor (or_None (api_key i))
    ∈ trace (app h i) /\
  count is_runtime (trace (app h i)) >= 1.
Proof.
  intros Hd Hs Hw Hc.
  assert (resolved h i = Some (default_config h)) as Hr
    by (unfold resolved; by rewrite Hc).
  split; [by apply resolve_config_outcome|].
  rewrite (app_normal_run h i descriptor (default_config h)) by done.
  rewrite seed_sessions_eq, !trace_pair. split; [|split].
  - rewrite ?count_app, ?count_cons. unfold_stages. rewrite Hc.
    simpl. decide_conditions; simpl; lia.
  - rewrite !elem_of_app. right. right. left.
    unfold construction. rewrite Hc. simpl.
    rewrite elem_of_app, elem_of_cons. by right; left.
  - rewrite !count_app.
    match goal with
    | |- context [count is_runtime (trace (start_runtime h ?c))] =>
        assert (1 <= count is_runtime (trace (start_runtime h c)));
          [|lia]
    end.
    rewrite start_runtime_eq. unfold loop_events, trace, count.
    decide_conditions; simpl; lia.
Qed.

(** X5. A failed load is the only thing the entry point reports.  A run
    has at most one diagnostic (critical log entry or error-console
    line); when it has one, a configuration path was given, loading it
    raised, and the diagnostic is the last call of the run: the run
    returns normally after the critical log entry, and ends as the print
    on the error console ends after the other. *)
Theorem diagnostic_means_failed_load h i :
  count is_diagnostic (trace (app h i)) <= 1 /\
  forall ev,
    ev ∈ trace (app h i) ->
    is_diagnostic ev = true ->
    exists p e before,
      config i = Some p /\
      load_config h (Path_absolute h p) = Raised e /\
      app h i =
      (before ++ [ev],
       if isinstance e FileNotFoundError then Returned ()
       else completion
              (Console_print h
                 ("Failed to load config from " +:+
                  repr_str h (Path_absolute h p) +:+ "; " +:+ exc_repr e))).
Proof.
  split; [count_run h i|].
  intros ev Hin Hev.
  run_cases h i.
  - rewrite Req, trace_pair in Hin. in_list Hin.
  - rewrite Req, trace_pair in Hin. in_list Hin.
  - rewrite Req, trace_pair in Hin. in_list Hin.
  - exists rp, re.
    eexists (preamble h i rd ++ [_; _]).
    repeat split; try done. rewrite Req. f_equal.
    rewrite <- app_assoc. simpl. do 4 f_equal.
    rewrite Req, trace_pair in Hin. revert Hin Hev.
    unfold preamble, config_message. simpl.
    decide_conditions; intros Hin Hev; in_list Hin.
  - exfalso. rewrite Req, trace_pair in Hin. clear Req.
    rewrite !elem_of_app in Hin.
    repeat match type of Hin with
           | _ \/ _ => destruct Hin as [Hin|Hin]
           end;
      normal_config h i; revert Hin Hev; unfold_stages; simpl;
      decide_conditions; simpl; intros Hin Hev; in_list Hin;
      congruence.
Qed.

(** X6. Sessions are settled before the runtime is touched.  Every run
    splits in two: first the calls that are not part of the runtime
    start-up, then nothing but calls of the start-up; so the client is
    never built, counted or given a session once the import of uvloop
    has been tried. *)
Theorem registration_precedes_runtime h i :
  exists before after,
    trace (app h i) = before ++ after /\
    Forall (fun ev => is_runtime ev = false) before /\
    Forall (fun ev => is_runtime ev = true) after.
Proof.
  run_cases h i; rewrite Req, trace_pair.
  - eexists _, []. rewrite app_nil_r. repeat split; repeat constructor.
  - eexists _, []. rewrite app_nil_r. repeat split; repeat constructor.
  - eexists _, []. rewrite app_nil_r. repeat split; repeat constructor.
  - eexists _, []. rewrite app_nil_r. split; [done|]. split; [|constructor].
    unfold preamble, config_message.
    decide_conditions; repeat constructor.
  - exists (preamble h i rd ++ config_events h i ++
            construction h i rd rcfg ++
            (terminal_events h i ++
             EvAppCount (app_count (with_terminal h i
                                      (new_client h i rd rcfg))) ::
             default_events (with_terminal h i (new_client h i rd rcfg)))),
      (trace (start_runtime h (seeded_client h i rd rcfg))).
    split; [by rewrite <- !app_assoc|]. split.
    + unfold_stages. decide_conditions; repeat constructor.
    + rewrite start_runtime_eq. unfold loop_events, trace.
      decide_conditions; repeat constructor.
Qed.

(** A call of the runtime start-up occurs only on a normal run whose
    configuration resolved, and within the start-up stage. *)
Lemma runtime_calls h i ev :
  ev ∈ trace (app h i) ->
  is_runtime ev = true ->
  exists descriptor cfg before,
    ENVIRONMENTS h !! environment i = Some descriptor /\
    signup i = false /\ welcome i = false /\
    resolved h i = Some cfg /\
    app h i =
    (before ++ trace (start_runtime h (seeded_client h i descriptor cfg)),
     outcome (start_runtime h (seeded_client h i descriptor cfg))) /\
    ev ∈ trace (start_runtime h (seeded_client h i descriptor cfg)).
Proof.
  intros Hin Hev.
  run_cases h i.
  - rewrite Req, trace_pair in Hin. in_list Hin.
  - rewrite Req, trace_pair in Hin. in_list Hin.
  - rewrite Req, trace_pair in Hin. in_list Hin.
  - exfalso. rewrite Req, trace_pair in Hin. revert Hin Hev.
    unfold preamble, config_message. simpl.
    decide_conditions; intros Hin Hev; in_list Hin.
  - destruct (normal_run_before_startup h i rd rcfg)
      as (before & Hbefore & Heq); try done.
    exists rd, rcfg, before. repeat split; try done.
    rewrite Heq, trace_pair, elem_of_app in Hin.
    destruct Hin as [Hin|Hin]; [|done].
    rewrite Forall_forall in Hbefore. specialize (Hbefore _ Hin).
    congruence.
Qed.

(** X7. The runner is always closed.  A run enters the runner as often as it
    leaves it, and enters the runner or installs uvloop at most once,
    never both; when the runner is entered, the run ends with entering
    it, driving [run] and leaving it, whether [run] returned or raised,
    and what [run] raised goes on. *)
Theorem runner_always_closed h i :
  count is_runner_enter (trace (app h i)) =
  count is_runner_exit (trace (app h i)) /\
  count is_runner_enter (trace (app h i)) +
  count is_install (trace (app h i)) <= 1 /\
  (EvRunnerEnter ∈ trace (app h i) ->
   exists before c,
     app h i =
     (before ++ [EvRunnerEnter; EvRunnerRun c; EvRunnerExit],
      completion (run c))).
Proof.
  split; [count_run h i|]. split; [count_run h i|].
  intros Hin.
  destruct (runtime_calls h i _ Hin eq_refl)
    as (descriptor & cfg & before & _ & _ & _ & _ & Heq & Hstage).
  rewrite Heq. clear Heq Hin. revert Hstage.
  rewrite start_runtime_eq. unfold loop_events, trace, outcome.
  decide_conditions; intros Hstage; try (in_list Hstage; fail).
  exists (before ++ [EvImportUvloop]), (seeded_client h i descriptor cfg).
  by rewrite <- app_assoc.
Qed.

(** X8. The version test of line 157.  With the interpreter version
    [major.minor], the runner is used only on 3.11 or newer (a major
    version above 3 included) and [uvloop.install] only below 3.11; on a
    normal run whose configuration resolved and where uvloop was
    imported, the one or the other is used accordingly. *)
Theorem runner_from_python_3_11 h i major minor rest :
  sys_version_info h = major :: minor :: rest ->
  (EvRunnerEnter ∈ trace (app h i) ->
   3 < major \/ (major = 3 /\ 11 <= minor)) /\
  (EvUvloopInstall ∈ trace (app h i) ->
   major < 3 \/ (major = 3 /\ minor < 11)) /\
  (forall descriptor cfg,
     ENVIRONMENTS h !! environment i = Some descriptor ->
     signup i = false ->
     welcome i = false ->
     outcome (resolve_config h i) = Returned (Some cfg) ->
     import_uvloop h = None ->
     (3 < major \/ (major = 3 /\ 11 <= minor) ->
      EvRunnerEnter ∈ trace (app h i)) /\
     (major < 3 \/ (major = 3 /\ minor < 11) ->
      EvUvloopInstall ∈ trace (app h i))).
Proof.
  intros Hversion.
  pose proof (version_at_least_3_11 major minor rest) as Hge.
  rewrite <- Hversion in Hge.
  split; [|split].
  - intros Hin.
    destruct (runtime_calls h i _ Hin eq_refl)
      as (descriptor & cfg & before & _ & _ & _ & _ & _ & Hstage).
    revert Hstage. rewrite start_runtime_eq. unfold loop_events, trace.
    decide_conditions; intros Hstage; try (in_list Hstage; fail);
      by apply Hge.
  - intros Hin.
    destruct (runtime_calls h i _ Hin eq_refl)
      as (descriptor & cfg & before & _ & _ & _ & _ & _ & Hstage).
    revert Hstage. rewrite start_runtime_eq. unfold loop_events, trace.
    decide_conditions; intros Hstage; try (in_list Hstage; fail).
    destruct (decide (3 < major \/ (major = 3 /\ 11 <= minor))) as [Hnew|Hold];
      [apply Hge in Hnew; congruence | lia].
  - intros descriptor cfg Henv Hs Hw Hcfg Himport.
    apply resolve_config_outcome in Hcfg.
    destruct (normal_run_before_startup h i descriptor cfg)
      as (before & _ & Heq); try done.
    rewrite Heq, trace_pair, start_runtime_eq, Himport, trace_pair.
    unfold loop_events. split; intros Hcase.
    + apply Hge in Hcase. rewrite Hcase.
      rewrite elem_of_app, !elem_of_cons. tauto.
    + destruct (tuple_ge (sys_version_info h) [3; 11]) eqn:Htest.
      * destruct Hge as [Hge _]. specialize (Hge eq_refl). lia.
      * rewrite elem_of_app, !elem_of_cons. tauto.
Qed.

(** X9. The identity generator serves the terminal only.  A run calls the
    generator exactly as often as it registers a terminal, at most once,
    and never without the terminal flag. *)
Theorem generator_only_for_terminal h i :
  count is_generate (trace (app h i)) =
  count is_add_terminal (trace (app h i)) /\
  count is_generate (trace (app h i)) <= 1 /\
  (terminal i = false -> count is_generate (trace (app h i)) = 0).
Proof. split; [|split]; count_run h i. Qed.

(** X10. The client that is run holds an application.  Provided registering
    an application leaves the client with a positive [app_count], the
    client handed to [asyncio.run] or to the runner always has a positive
    [app_count]: the default application fills in when nothing else is
    there. *)
Theorem run_has_an_application h i c :
  (forall c' name command slug,
     app_count (add_app c' name command slug) <> 0) ->
  EvAsyncioRun c ∈ trace (app h i) \/ EvRunnerRun c ∈ trace (app h i) ->
  app_count c <> 0.
Proof.
  intros Hlaw Hin.
  assert (exists descriptor cfg, c = seeded_client h i descriptor cfg)
    as (descriptor & cfg & ->).
  { destruct Hin as [Hin|Hin];
      destruct (runtime_calls h i _ Hin eq_refl)
        as (descriptor & cfg & before & _ & _ & _ & _ & _ & Hstage);
      exists descriptor, cfg; revert Hstage;
      rewrite start_runtime_eq; unfold loop_events, trace;
      decide_conditions; intros Hstage; in_list Hstage. }
  unfold seeded_client, with_default.
  destruct (app_count _ =? 0) eqn:Hcount.
  - apply Hlaw.
  - by apply Nat.eqb_neq.
Qed.

(** X11. The key the client receives, from the command line.  An [--api-key]
    that is given wins over [constants.API_KEY], also when it is empty:
    an empty key on the command line leaves the client without a key,
    whatever the constant holds.  The path the client receives is the
    [--config] value, or ["./"] without one. *)
Theorem api_key_precedence h cl i r path cfg env key :
  command h cl = Called i r ->
  EvNewClient path cfg env key ∈ trace r ->
  key = match opt_api_key cl with
        | Some given => if bool_decide (given = "") then None else Some given
        | None => or_None (constants_API_KEY h)
        end /\
  path = or_str (opt_config cl) "./".
Proof.
  unfold command, click_Choice.
  destruct (bool_decide _); [|done].
  intros [= <- <-] Hin.
  destruct (new_client_calls h _ path cfg env key Hin)
    as (_ & _ & _ & -> & ->).
  simpl. split; [|done]. by destruct (opt_api_key cl).
Qed.

(** X12. Debug mode only adds output.  Setting [constants.DEBUG] changes
    neither how a run ends nor any call it makes, except for adding the
    warning of line 118 and the print of the configuration of line 138:
    with these two removed, the trace under DEBUG is the trace without
    it, which holds neither. *)
Theorem debug_only_adds_output h i :
  outcome (app (with_DEBUG true h) i) = outcome (app (with_DEBUG false h) i) /\
  List.filter (fun ev => negb (debug_only ev))
    (trace (app (with_DEBUG true h) i)) =
  trace (app (with_DEBUG false h) i) /\
  count debug_only (trace (app (with_DEBUG false h) i)) = 0.
Proof.
  destruct (ENVIRONMENTS h !! environment i) as [descriptor|] eqn:Henv.
  2: { rewrite (app_unknown_environment (with_DEBUG true h) i Henv).
       rewrite (app_unknown_environment (with_DEBUG false h) i Henv).
       done. }
  destruct (signup i) eqn:Hs.
  { rewrite (app_signup (with_DEBUG true h) i descriptor Henv Hs).
    rewrite (app_signup (with_DEBUG false h) i descriptor Henv Hs).
    done. }
  destruct (welcome i) eqn:Hw.
  { rewrite (app_welcome (with_DEBUG true h) i descriptor Henv Hs Hw).
    rewrite (app_welcome (with_DEBUG false h) i descriptor Henv Hs Hw).
    done. }
  destruct (resolved h i) as [cfg|] eqn:Hr.
  - rewrite (app_normal_run (with_DEBUG true h) i descriptor cfg
               Henv Hs Hw Hr).
    rewrite (app_normal_run (with_DEBUG false h) i descriptor cfg
               Henv Hs Hw Hr).
    rewrite !seed_sessions_eq, !start_runtime_eq.
    unfold preamble, config_events, config_message, construction,
      terminal_events, default_events, loop_events, with_default,
      with_terminal, new_client, os_environ_get, trace, outcome, count.
    simpl. decide_conditions; done.
  - rewrite (app_config_failed (with_DEBUG true h) i descriptor
               Henv Hs Hw Hr).
    rewrite (app_config_failed (with_DEBUG false h) i descriptor
               Henv Hs Hw Hr).
    unfold preamble, config_events, config_message, trace, outcome, count.
    simpl. decide_conditions; done.
Qed.

End Runs.

(** * Worked runs *)

Example desk_terminal_run :
  app desk (invocation None true false false) =
  ([EvGetEnvironment "prod";
    EvPrintDisclaimer;
    EvLog INFO "version='0.4.2'";
    EvLog INFO "environment=Environment(https://textual-web.io)";
    EvLog INFO "No --config specified, using defaults.";
    EvDefaultConfig;
    EvNewClient "./" "" "https://textual-web.io" None;
    EvGenerate;
    EvAddTerminal "Terminal" "/bin/zsh" "4vq8kdw1xk2m";
    EvAppCount 1;
    EvImportUvloop;
    EvAsyncioRun
      {| orch_path := "./"; orch_config := "";
         orch_environment := "https://textual-web.io";
         orch_api_key := None;
         sessions :=
           [ {| session_kind := InteractiveTerminal;
                session_label := "Terminal";
                session_command := "/bin/zsh";
                session_identifier := "4vq8kdw1xk2m" |} ] |}],
   Returned ()).
Proof. vm_compute. reflexivity. Qed.

(** The same desk asked for a configuration file that is not there, and
    for one that is. *)
Example desk_missing_config :
  app desk (invocation (Some "nowhere.toml") true false false) =
  ([EvGetEnvironment "prod";
    EvPrintDisclaimer;
    EvLog INFO "version='0.4.2'";
    EvLog INFO "environment=Environment(https://textual-web.io)";
    EvLog INFO "loading config from '/srv/nowhere.toml'";
    EvLoadConfig "/srv/nowhere.toml";
    EvLog CRITICAL "Config not found"],
   Returned ()).
Proof. vm_compute. reflexivity. Qed.

Example fast_uses_runner :
  trace (app fast (invocation None false false false)) =
  [EvGetEnvironment "prod";
   EvPrintDisclaimer;
   EvLog INFO "version='0.4.2'";
   EvLog INFO "environment=Environment(https://textual-web.io)";
   EvLog INFO "No --config specified, using defaults.";
   EvDefaultConfig;
   EvNewClient "./" "" "https://textual-web.io" None;
   EvAppCount 0;
   EvAddApp "Welcome" "textual-web --welcome" "welcome";
   EvImportUvloop;
   EvRunnerEnter;
   EvRunnerRun
     (registerApplication
        (GanglionClient_init "./" "" "https://textual-web.io" None)
        "Welcome" "textual-web --welcome" "welcome");
   EvRunnerExit].
Proof. vm_compute. reflexivity. Qed.

(** ** Instances of the theorems *)

Lemma entry_branch_priority_witness :
  ENVIRONMENTS desk !! "prod" = Some "https://textual-web.io" /\
  app desk (invocation None false true true) =
  ([EvGetEnvironment "prod"; EvSignup "https://textual-web.io"], Returned ()).
Proof.
  split; [reflexivity|].
  apply (entry_branch_priority (Client:=Orchestrator) desk (invocation None false true true)
           "https://textual-web.io").
  reflexivity.
Defined.


Lemma default_seeded_iff_none_pending_witness :
  outcome (resolve_config (Client:=Orchestrator) fast
             (invocation None false false false)) = Returned (Some "") /\
  exists before after,
    trace (app fast (invocation None false false false)) =
    before ++
    EvAppCount 0 ::
    [EvAddApp "Welcome" "textual-web --welcome" "welcome"] ++ after /\
    count is_add_app (before ++ after) = 0 /\
    count is_app_count (before ++ after) = 0 /\
    count is_add_app (trace (app fast (invocation None false false false))) = 1.
Proof.
  split; [reflexivity|].
  exact (default_seeded_iff_none_pending (Client:=Orchestrator) fast
           (invocation None false false false) "https://textual-web.io" ""
           eq_refl eq_refl eq_refl eq_refl).
Defined.

Lemma terminal_precludes_default_witness :
  terminal (invocation None true false false) = true /\
  Forall (terminal_suffices (Environment:=string) (Config:=string))
    (trace (app desk (invocation None true false false))) /\
  count is_add_app (trace (app desk (invocation None true false false))) = 0.
Proof.
  split; [reflexivity|].
  destruct (terminal_precludes_default no_sessions publish_all desk
              (invocation None true false false)) as (Hall & Hnone & _);
    [reflexivity | reflexivity | reflexivity |].
  split; [exact Hall | exact Hnone].
Defined.

Lemma runtime_started_once_witness :
  outcome (resolve_config (Client:=Orchestrator) bare
             (invocation None false false false)) = Returned (Some "") /\
  import_uvloop bare = None /\
  count drives_run (trace (app bare (invocation None false false false))) = 1.
Proof.
  split; [reflexivity|]. split; [reflexivity|].
  apply (runtime_started_once (Client:=Orchestrator) bare (invocation None false false false)
           "https://textual-web.io" ""); try reflexivity.
  intros e He. discriminate He.
Defined.

Lemma import_error_falls_through_witness :
  import_uvloop desk = Some no_uvloop /\
  isinstance no_uvloop ImportError = true /\
  exists before,
    Forall (fun ev => is_runtime ev = false) before /\
    app desk (invocation None false false false) =
    (before ++
     [EvImportUvloop;
      EvAsyncioRun
        (seeded_client desk (invocation None false false false)
           "https://textual-web.io" "")],
     Returned ()).
Proof.
  split; [reflexivity|]. split; [reflexivity|].
  exact (import_error_falls_through (Client:=Orchestrator) desk
           (invocation None false false false) "https://textual-web.io" ""
           no_uvloop eq_refl eq_refl eq_refl eq_refl eq_refl eq_refl).
Defined.

Lemma terminal_session_registered_witness :
  identity_generate desk <> "" /\
  (exists before after,
     trace (app desk (invocation None true false false)) =
     before ++
     [EvGenerate; EvAddTerminal "Terminal" "/bin/zsh" "4vq8kdw1xk2m"] ++
     after /\
     count is_generate (before ++ after) = 0 /\
     count is_add_terminal (before ++ after) = 0) /\
  count is_add_terminal (trace (app desk (invocation None true false false)))
  = 1.
Proof.
  assert (identity_generate desk <> "") as Hgen by (intros H; discriminate H).
  split; [exact Hgen|].
  destruct (terminal_session_registered (Client:=Orchestrator) desk
              (invocation None true false false) "https://textual-web.io" "")
    as (Hsplit & Hone & _); try reflexivity; [exact Hgen|].
  split; [exact Hsplit | exact Hone].
Defined.

Lemma environment_always_resolves_witness :
  command desk
    {| opt_config := None; opt_environment := Some "staging";
       opt_api_key := None; opt_terminal := false; opt_signup := false;
       opt_welcome := false |} = UsageError "staging".
Proof.
  apply (environment_always_resolves (Client:=Orchestrator) desk
           {| opt_config := None; opt_environment := Some "staging";
              opt_api_key := None; opt_terminal := false;
              opt_signup := false; opt_welcome := false |}).
  vm_compute. intros Hin.
  repeat (apply elem_of_cons in Hin as [Hin|Hin]; [discriminate Hin|]).
  by apply elem_of_nil in Hin.
Defined.

Lemma default_shell_is_relative_witness :
  os_environ bare !! "SHELL" = None /\
  EvAddTerminal "Terminal" "bin/sh" "4vq8kdw1xk2m"
    ∈ trace (app bare (invocation None true false false)).
Proof.
  split; [reflexivity|].
  destruct (default_shell_is_relative (Client:=Orchestrator) bare
              (invocation None true false false)) as (_ & Hmade & _);
    [reflexivity|].
  exact (Hmade "https://textual-web.io" "" eq_refl eq_refl eq_refl eq_refl
           eq_refl).
Defined.

Lemma default_application_is_constant_witness :
  EvAddApp "Welcome" "textual-web --welcome" "welcome"
    ∈ trace (app fast (invocation None false false false)).
Proof.
  destruct (default_application_is_constant (Client:=Orchestrator) fast
              (invocation None false false false) bare
              (invocation None false false false)) as (_ & Hmade & _).
  exact (Hmade "https://textual-web.io" "" eq_refl eq_refl eq_refl eq_refl
           eq_refl).
Defined.

(** ** Runs on which the stronger readings fail *)

(** A normal run that never starts the runtime: the configuration file is
    missing; and one whose probe raises a RuntimeError. *)
Lemma runtime_not_always_started :
  signup (invocation (Some "nowhere.toml") false false false) = false /\
  welcome (invocation (Some "nowhere.toml") false false false) = false /\
  count drives_run
    (trace (app desk (invocation (Some "nowhere.toml") false false false)))
  = 0 /\
  count drives_run (trace (app faulty (invocation None false false false)))
  = 0.
Proof. vm_compute. repeat split. Qed.

(** A probe failure that leaves the entry point: nothing is run. *)
Lemma probe_failure_can_escape :
  import_uvloop faulty = Some broken_uvloop /\
  app faulty (invocation None false false false) =
  ([EvGetEnvironment "prod";
    EvPrintDisclaimer;
    EvLog INFO "version='0.4.2'";
    EvLog INFO "environment=Environment(https://textual-web.io)";
    EvLog INFO "No --config specified, using defaults.";
    EvDefaultConfig;
    EvNewClient "./" "" "https://textual-web.io" None;
    EvAppCount 0;
    EvAddApp "Welcome" "textual-web --welcome" "welcome";
    EvImportUvloop],
   Raised broken_uvloop).
Proof. vm_compute. repeat split. Qed.

(** C4, on a run where the code departs from it.  The file [[/x].toml]
    is there but does not parse, so the load fails with an error that is
    not a FileNotFoundError and line 129 prints the diagnostic.  The
    message holds the path, hence the closing tag [[/x]] with nothing
    open: the print raises a MarkupError inside the handler, and that
    exception leaves the entry point where a normal return was meant.
    Nothing after the configuration stage is reached. *)
Lemma config_report_can_raise :
  load_config marked (Path_absolute marked "[/x].toml") = Raised not_toml /\
  isinstance not_toml FileNotFoundError = false /\
  app marked (invocation (Some "[/x].toml") false false false) =
  ([EvGetEnvironment "prod";
    EvPrintDisclaimer;
    EvLog INFO "version='0.4.2'";
    EvLog INFO "environment=Environment(https://textual-web.io)";
    EvLog INFO "loading config from '/srv/[/x].toml'";
    EvLoadConfig "/srv/[/x].toml";
    EvErrorConsole
      ("Failed to load config from '/srv/[/x].toml'; " +:+
       "TOMLDecodeError('Invalid statement (at line 1, column 1)')")],
   Raised unmatched_tag).
Proof. vm_compute. repeat split. Qed.

(** A normal run with the terminal flag that registers no terminal: the
    configuration file is missing. *)
Lemma terminal_flag_without_session :
  signup (invocation (Some "nowhere.toml") true false false) = false /\
  welcome (invocation (Some "nowhere.toml") true false false) = false /\
  terminal (invocation (Some "nowhere.toml") true false false) = true /\
  ENVIRONMENTS desk !! "prod" = Some "https://textual-web.io" /\
  count is_add_terminal
    (trace (app desk (invocation (Some "nowhere.toml") true false false)))
  = 0.
Proof. vm_compute. repeat split. Qed.

(** ** Instances of the further properties *)

Lemma exceptions_leaving_app_witness :
  import_uvloop faulty = Some broken_uvloop /\
  isinstance broken_uvloop ImportError = false /\
  outcome (app faulty (invocation None false false false)) =
  Raised broken_uvloop.
Proof.
  split; [reflexivity|]. split; [reflexivity|].
  destruct (exceptions_leaving_app (Client:=Orchestrator) faulty
              (invocation None false false false) "https://textual-web.io"
              broken_uvloop eq_refl eq_refl eq_refl) as (_ & Hgoes).
  apply (Hgoes ""); [reflexivity|].
  left. split; reflexivity.
Defined.

Lemma config_has_one_source_witness :
  count is_load
    (trace (app desk (invocation (Some "ganglion.toml") false false false))) +
  count is_default_config
    (trace (app desk (invocation (Some "ganglion.toml") false false false)))
  = 1.
Proof.
  apply (config_has_one_source (Client:=Orchestrator) desk
           (invocation (Some "ganglion.toml") false false false))
    with "https://textual-web.io"; reflexivity.
Defined.

Lemma client_construction_witness :
  count is_new_client
    (trace (app desk (invocation (Some "") false false false))) <= 1 /\
  EvNewClient "./" "" "https://textual-web.io" None
    ∈ trace (app desk (invocation None false false false)).
Proof.
  split.
  - apply (client_construction (Client:=Orchestrator) desk
             (invocation (Some "") false false false)).
  - destruct (client_construction (Client:=Orchestrator) desk
                (invocation None false false false)) as (_ & _ & Hbuilt).
    exact (Hbuilt "https://textual-web.io" "" eq_refl eq_refl eq_refl
             eq_refl).
Defined.

Lemma defaults_always_start_witness :
  config (invocation None true false false) = None /\
  count is_diagnostic (trace (app desk (invocation None true false false)))
  = 0 /\
  count is_runtime (trace (app desk (invocation None true false false)))
  >= 1.
Proof.
  split; [reflexivity|].
  destruct (defaults_always_start (Client:=Orchestrator) desk
              (invocation None true false false) "https://textual-web.io")
    as (_ & Hquiet & _ & Hstarted); try reflexivity.
  split; [exact Hquiet | exact Hstarted].
Defined.

Lemma diagnostic_means_failed_load_witness :
  count is_diagnostic
    (trace (app desk (invocation (Some "nowhere.toml") true false false)))
  <= 1.
Proof.
  apply (diagnostic_means_failed_load (Client:=Orchestrator) desk
           (invocation (Some "nowhere.toml") true false false)).
Defined.

Lemma registration_precedes_runtime_witness :
  exists before after,
    trace (app fast (invocation None true false false)) = before ++ after /\
    Forall (fun ev => is_runtime ev = false) before /\
    Forall (fun ev => is_runtime ev = true) after.
Proof.
  apply (registration_precedes_runtime (Client:=Orchestrator) fast
           (invocation None true false false)).
Defined.

Lemma runner_always_closed_witness :
  count is_runner_enter (trace (app fast (invocation None false false false)))
  = count is_runner_exit
      (trace (app fast (invocation None false false false))).
Proof.
  apply (runner_always_closed (Client:=Orchestrator) fast
           (invocation None false false false)).
Defined.

Lemma runner_from_python_3_11_witness :
  sys_version_info bare = 3 :: 10 :: [4] /\
  EvUvloopInstall ∈ trace (app bare (invocation None false false false)).
Proof.
  split; [reflexivity|].
  destruct (runner_from_python_3_11 (Client:=Orchestrator) bare
              (invocation None false false false) 3 10 [4] eq_refl)
    as (_ & _ & Hused).
  destruct (Hused "https://textual-web.io" "" eq_refl eq_refl eq_refl
              eq_refl eq_refl) as (_ & Hinstall).
  apply Hinstall. right. lia.
Defined.

Lemma generator_only_for_terminal_witness :
  terminal (invocation None false false false) = false /\
  count is_generate (trace (app desk (invocation None false false false)))
  = 0.
Proof.
  split; [reflexivity|].
  apply (generator_only_for_terminal (Client:=Orchestrator) desk
           (invocation None false false false)).
  reflexivity.
Defined.

Lemma pendingCount_registerApplication (c : Orchestrator)
    (label command identifier : string) :
  pendingCount (registerApplication c label command identifier) <> 0.
Proof.
  unfold pendingCount, registerApplication. simpl.
  rewrite length_app. simpl. lia.
Qed.

Lemma run_has_an_application_witness :
  EvAsyncioRun
    (registerApplication
       (GanglionClient_init "./" "" "https://textual-web.io" None)
       "Welcome" "textual-web --welcome" "welcome")
    ∈ trace (app desk (invocation None false false false)) /\
  app_count
    (registerApplication
       (GanglionClient_init "./" "" "https://textual-web.io" None)
       "Welcome" "textual-web --welcome" "welcome") <> 0.
Proof.
  assert (EvAsyncioRun
            (registerApplication
               (GanglionClient_init "./" "" "https://textual-web.io" None)
               "Welcome" "textual-web --welcome" "welcome")
            ∈ trace (app desk (invocation None false false false))) as Hin
    by (vm_compute; repeat constructor).
  split; [exact Hin|].
  apply (run_has_an_application (Client:=Orchestrator) desk
           (invocation None false false false)).
  - exact pendingCount_registerApplication.
  - left. exact Hin.
Defined.

Lemma api_key_precedence_witness :
  constants_API_KEY keyed = Some "K3Y" /\
  command keyed (only_key (Some "")) =
  Called
    {| config := None; environment := "prod"; terminal := false;
       api_key := Some ""; signup := false; welcome := false |}
    (app keyed
       {| config := None; environment := "prod"; terminal := false;
          api_key := Some ""; signup := false; welcome := false |}) /\
  EvNewClient "./" "" "https://textual-web.io" None
    ∈ trace
        (app keyed
           {| config := None; environment := "prod"; terminal := false;
              api_key := Some ""; signup := false; welcome := false |}) /\
  (None : option string) =
  (if bool_decide ("" = "") then None else Some "").
Proof.
  split; [reflexivity|].
  assert (command keyed (only_key (Some "")) =
          Called
            {| config := None; environment := "prod"; terminal := false;
               api_key := Some ""; signup := false; welcome := false |}
            (app keyed
               {| config := None; environment := "prod"; terminal := false;
                  api_key := Some ""; signup := false; welcome := false |}))
    as Hcall by (vm_compute; reflexivity).
  assert (EvNewClient "./" "" "https://textual-web.io" None
            ∈ trace
                (app keyed
                   {| config := None; environment := "prod";
                      terminal := false; api_key := Some "";
                      signup := false; welcome := false |}))
    as Hin by (vm_compute; repeat constructor).
  split; [exact Hcall|]. split; [exact Hin|].
  destruct (api_key_precedence (Client:=Orchestrator) keyed
              (only_key (Some "")) _ _ _ _ _ _ Hcall Hin) as (Hkey & _).
  exact Hkey.
Defined.

Lemma debug_only_adds_output_witness :
  outcome (app (with_DEBUG true desk) (invocation None true false false)) =
  outcome (app (with_DEBUG false desk) (invocation None true false false)).
Proof.
  apply (debug_only_adds_output (Client:=Orchestrator) desk
           (invocation None true false false)).
Defined.
